(** * Lorenz_LSTM: the Lorenz vector field and the one-step forecasting pipeline

    A shallow embedding of [LorenzPred.ipynb]: the vector field [lorenz], the
    parameters and the time grid of the simulation, the dataset builder
    (the two slices [data[:-1]] and [data[1:]]), the train/test split and the
    two Keras models with their training and prediction calls. *)

From Stdlib Require Import ZArith QArith String Lia Lqa.
From Stdlib Require Import PrimFloat FloatOps SpecFloat Uint63.
From stdpp Require Import base list strings gmap.

Local Open Scope nat_scope.

(* ===================================================================== *)
(** ** Python results *)
(* ===================================================================== *)

(** The exceptions the modelled statements can raise. *)
Inductive exn : Type :=
  | ValueError
  | IndexError
  | OverflowError
  | NameError.

(** A Python expression either yields a value or raises. *)
Inductive result (A : Type) : Type :=
  | Ok (a : A)
  | Raise (e : exn).

Arguments Ok {A} a.
Arguments Raise {A} e.

Definition bind {A B : Type} (r : result A) (k : A -> result B) : result B :=
  match r with
  | Ok a => k a
  | Raise e => Raise e
  end.

Notation "x <-! r ;; k" := (bind r (fun x => k))
  (at level 60, r at next level, right associativity, only parsing).

(* ===================================================================== *)
(** ** Numbers *)
(* ===================================================================== *)

(** The notebook computes with Python numbers: [int] literals, [float]
    literals and the float64 entries of NumPy arrays.  The arithmetic of the
    cells is written once, over this interface, and read at two number
    systems: binary64 (what the interpreter computes) and the rationals (the
    exact values the formulas of the notebook denote). *)
Class Num (A : Type) : Type := {
  of_int : Z -> A;          (* an int literal, or int -> float conversion *)
  of_lit : Q -> A;          (* a decimal literal such as 2.667 *)
  nadd : A -> A -> A;
  nsub : A -> A -> A;
  nmul : A -> A -> A;
  ndiv : A -> A -> A;
}.

Declare Scope num_scope.
Delimit Scope num_scope with num.
Infix "+" := nadd : num_scope.
Infix "-" := nsub : num_scope.
Infix "*" := nmul : num_scope.
Infix "/" := ndiv : num_scope.

(** int -> float, exact below 2^53. *)
Definition float_of_Z (z : Z) : float :=
  match z with
  | Z0 => PrimFloat.zero
  | Zpos _ => PrimFloat.of_uint63 (Uint63.of_Z z)
  | Zneg p => PrimFloat.opp (PrimFloat.of_uint63 (Uint63.of_Z (Zpos p)))
  end.

(** A decimal literal denotes the double nearest to its rational value; for
    numerators and denominators below 2^53 that is the correctly rounded
    quotient. *)
Definition float_of_lit (q : Q) : float :=
  PrimFloat.div (float_of_Z (Qnum q)) (float_of_Z (Zpos (Qden q))).

#[export] Instance Num_float : Num float := {|
  of_int := float_of_Z;
  of_lit := float_of_lit;
  nadd := PrimFloat.add;
  nsub := PrimFloat.sub;
  nmul := PrimFloat.mul;
  ndiv := PrimFloat.div;
|}.

#[export] Instance Num_Q : Num Q := {|
  of_int := inject_Z;
  of_lit := fun q => q;
  nadd := Qplus;
  nsub := Qminus;
  nmul := Qmult;
  ndiv := Qdiv;
|}.

(** [math.ceil] of a float: an int, or an exception on inf and nan. *)
Definition float_ceil (f : float) : result Z :=
  match Prim2SF f with
  | S754_zero _ => Ok 0%Z
  | S754_finite s m e =>
      let v := if s then Zneg m else Zpos m in
      Ok (if (0 <=? e)%Z then (v * 2 ^ e)%Z
          else (- ((- v) / 2 ^ (- e)))%Z)
  | S754_infinity _ => Raise OverflowError
  | S754_nan => Raise ValueError
  end.

(** [int(f)] for a float: truncation toward zero. *)
Definition float_trunc (f : float) : result Z :=
  match Prim2SF f with
  | S754_zero _ => Ok 0%Z
  | S754_finite s m e =>
      let a := if (0 <=? e)%Z then (Zpos m * 2 ^ e)%Z
               else (Zpos m / 2 ^ (- e))%Z in
      Ok (if s then (- a)%Z else a)
  | S754_infinity _ => Raise OverflowError
  | S754_nan => Raise ValueError
  end.

(* ===================================================================== *)
(** ** The Lorenz vector field *)
(* ===================================================================== *)

Module Lorenz.

(** The module-level names [sigma], [beta], [rho] that [lorenz] reads when
    it is called. *)
Record Globals (A : Type) : Type := {
  sigma : A;
  beta : A;
  rho : A;
}.

Arguments sigma {A} g.
Arguments beta {A} g.
Arguments rho {A} g.

Section Field.
Context {A : Type} `{Num A}.

(** [def lorenz(t, state)]: the unpacking [x, y, z = state] raises
    ValueError unless [state] has exactly three entries. *)
Definition lorenz (g : Globals A) (t : A) (state : list A)
  : result (list A) :=
  match state with
  | [x; y; z] =>
      let dxdt := (sigma g * (y - x))%num in
      let dydt := (x * (rho g - z) - y)%num in
      let dzdt := (x * y - beta g * z)%num in
      Ok [dxdt; dydt; dzdt]
  | _ => Raise ValueError
  end.

(** [def lorenz_system(t, state, sigma, beta, rho)] of the first two code
    cells: the same field with the parameters passed as arguments. *)
Definition lorenz_system (t : A) (state : list A) (sigma beta rho : A)
  : result (list A) :=
  match state with
  | [x; y; z] =>
      let dxdt := (sigma * (y - x))%num in
      let dydt := (x * (rho - z) - y)%num in
      let dzdt := (x * y - beta * z)%num in
      Ok [dxdt; dydt; dzdt]
  | _ => Raise ValueError
  end.

(** [sigma, beta, rho = 10.0, 8.0 / 3.0, 28.0] (first and second cell). *)
Definition attractor_globals : Globals A := {|
  sigma := of_lit 10;
  beta := (of_lit 8 / of_lit 3)%num;
  rho := of_lit 28;
|}.

(** [sigma, beta, rho = 10, 2.667, 28] (the cell of the ML pipeline). *)
Definition ml_globals : Globals A := {|
  sigma := of_int 10;
  beta := of_lit (2667 # 1000);
  rho := of_int 28;
|}.

(** [initial_state = [0, 1, 1.05]] *)
Definition initial_state : list A :=
  [of_int 0; of_int 1; of_lit (105 # 100)].

(** [t_span = [0, 100]] *)
Definition t_span : list A := [of_int 0; of_int 100].

(** [np.linspace(start, stop, num)]: [num] samples [start + i * step] with
    [step = (stop - start) / (num - 1)], the last one set to [stop]. *)
Definition linspace (start stop : A) (num : nat) : list A :=
  match num with
  | 0 => []
  | 1 => [start]
  | S div =>
      let step := ((stop - start) / of_int (Z.of_nat div))%num in
      map (fun i => (of_int (Z.of_nat i) * step + start)%num) (seq 0 div)
        ++ [stop]
  end.

(** [t_eval]: [np.linspace] applied to the two entries of [t_span] and
    to 1000. *)
Definition t_eval : list A :=
  match t_span with
  | [start; stop] => linspace start stop 1000
  | _ => []
  end.

End Field.

End Lorenz.

(* ===================================================================== *)
(** ** The module namespace of the notebook *)
(* ===================================================================== *)

Module Namespace.

Import Lorenz.

Section Calls.
Context {A : Type} `{Num A}.

(** Code run in the module namespace of the notebook, the names the cells
    have bound and their values: it yields a value or raises, and it leaves
    a namespace behind. *)
Definition Run (X : Type) : Type :=
  gmap string A -> result X * gmap string A.

Definition rret {X : Type} (x : X) : Run X := fun ns => (Ok x, ns).

Definition rbind {X Y : Type} (m : Run X) (k : X -> Run Y) : Run Y :=
  fun ns =>
    match m ns with
    | (Ok x, ns') => k x ns'
    | (Raise e, ns') => (Raise e, ns')
    end.

(** A function body reading a module-level name: NameError when no cell
    has bound it. *)
Definition load_global (name : string) : Run A :=
  fun ns =>
    match ns !! name with
    | Some v => (Ok v, ns)
    | None => (Raise NameError, ns)
    end.

(** A module-level assignment [name = value]. *)
Definition store_global (name : string) (v : A) : Run unit :=
  fun ns => (Ok tt, <[name := v]> ns).

(** [sigma, beta, rho = 10, 2.667, 28] (the cell of the ML pipeline). *)
Definition ml_parameters : Run unit :=
  rbind (store_global "sigma" (of_int 10)) (fun _ =>
  rbind (store_global "beta" (of_lit (2667 # 1000))) (fun _ =>
  store_global "rho" (of_int 28))).

(** [sigma, beta, rho = 10.0, 8.0 / 3.0, 28.0] (first and second cell). *)
Definition attractor_parameters : Run unit :=
  let b := (of_lit 8 / of_lit 3)%num in
  rbind (store_global "sigma" (of_lit 10)) (fun _ =>
  rbind (store_global "beta" b) (fun _ =>
  store_global "rho" (of_lit 28))).

(** A call [lorenz(t, state)] in the namespace.  The names [x], [y], [z],
    [dxdt], [dydt] and [dzdt] are assigned in the body, so they are local
    to the call; [sigma], [rho] and [beta] are not, so they are read from
    the module namespace, each when its line is reached. *)
Definition lorenz_call (t : A) (state : list A) : Run (list A) :=
  match state with
  | [x; y; z] =>
      rbind (load_global "sigma") (fun sigma =>
      let dxdt := (sigma * (y - x))%num in
      rbind (load_global "rho") (fun rho =>
      let dydt := (x * (rho - z) - y)%num in
      rbind (load_global "beta") (fun beta =>
      let dzdt := (x * y - beta * z)%num in
      rret [dxdt; dydt; dzdt])))
  | _ => fun ns => (Raise ValueError, ns)
  end.

End Calls.

End Namespace.

(* ===================================================================== *)
(** ** NumPy arrays as nested lists *)
(* ===================================================================== *)

Module Numpy.

(** [n] consecutive blocks of [k] entries. *)
Fixpoint chunks {A : Type} (n k : nat) (l : list A) : list (list A) :=
  match n with
  | 0 => []
  | S n' => take k l :: chunks n' k (drop k l)
  end.

Section Arrays.
Context {A : Type}.

(** A slice bound: a negative bound counts from the end, and the result
    is clipped to [0, n]. *)
Definition clip_index (n : nat) (i : Z) : nat :=
  Z.to_nat
    (Z.max 0 (Z.min (Z.of_nat n)
                    (if (i <? 0)%Z then (i + Z.of_nat n)%Z else i))).

(** [l[start:stop]] along the first axis, either bound optional. *)
Definition slice (start stop : option Z) (l : list A) : list A :=
  let n := length l in
  let a := from_option (clip_index n) 0 start in
  let b := from_option (clip_index n) n stop in
  take (b - a) (drop a l).

(** [l[indices]] with an array of indices: the rows at these positions, in
    the order of [indices]; IndexError when one is out of bounds. *)
Fixpoint index_rows (l : list A) (indices : list nat) : result (list A) :=
  match indices with
  | [] => Ok []
  | i :: rest =>
      match l !! i with
      | Some a => r <-! index_rows l rest ;; Ok (a :: r)
      | None => Raise IndexError
      end
  end.

(** [X.shape] of a two-dimensional array. *)
Definition shape2 (X : list (list A)) : nat * nat :=
  (length X, match X with r :: _ => length r | [] => 0 end).

(** [X.reshape(d0, d1, d2)] of a two-dimensional array, in row-major
    order; ValueError when the sizes differ. *)
Definition reshape3 (d0 d1 d2 : nat) (X : list (list A))
  : result (list (list (list A))) :=
  let flat := concat X in
  if decide (length flat = d0 * d1 * d2)
  then Ok (chunks d0 d1 (chunks (d0 * d1) d2 flat))
  else Raise ValueError.

(** Column [j] of a two-dimensional array. *)
Definition column (j : nat) (m : list (list A)) : list A :=
  omap (fun r => r !! j) m.

(** [m.T] of a two-dimensional array. *)
Definition transpose (m : list (list A)) : list (list A) :=
  map (fun j => column j m) (seq 0 (shape2 m).2).

End Arrays.

End Numpy.

(* ===================================================================== *)
(** ** scikit-learn: train_test_split *)
(* ===================================================================== *)

Module Sklearn.

(** The four arrays [train_test_split] returns for two input arrays. *)
Record Split (A : Type) : Type := {
  X_train : list A;
  X_test : list A;
  y_train : list A;
  y_test : list A;
}.

Arguments X_train {A} s.
Arguments X_test {A} s.
Arguments y_train {A} s.
Arguments y_test {A} s.

(** Modelled from the spec: [train_test_split] is scikit-learn's, not code of
    the notebook.  The sizes of the two subsets: the test subset has
    [ceil(test_size * n_samples)] examples (the 80/20 split of 999 examples
    is 799/200), the training subset has the others, and a split whose
    training subset would be empty is refused, as is a fraction outside
    (0, 1). *)
Definition validate_shuffle_split (n_samples : nat) (test_size : float)
  : result (Z * Z) :=
  if (PrimFloat.leb test_size 0 || PrimFloat.leb 1 test_size)%bool
  then Raise ValueError
  else
    n_test <-! float_ceil (test_size * float_of_Z (Z.of_nat n_samples)) ;;
    let n_train := (Z.of_nat n_samples - n_test)%Z in
    if (n_train =? 0)%Z then Raise ValueError else Ok (n_train, n_test).

Section Shuffle.
Context {A : Type}.

(** The pseudo-random generator: its state, the generator seeded with an
    int ([RandomState(seed)]) and the draw of a shuffled [range(n)]. *)
Variable RandomState : Type.
Variable seeded : Z -> RandomState.
Variable permutation : RandomState -> nat -> list nat * RandomState.

(** [check_random_state]: an int seeds a fresh generator, [None] is the
    process-wide generator. *)
Definition check_random_state (random_state : option Z)
    (global : RandomState) : RandomState :=
  match random_state with
  | Some seed => seeded seed
  | None => global
  end.

(** Modelled from the spec: [train_test_split(X, y, test_size=...,
    random_state=...)], a random, not time-ordered, partition with a fixed
    fraction held out and a fixed seed.  One shuffled index array is drawn;
    its first [n_test] entries index the test subset and the following
    [n_train] the training subset, and both arrays are indexed with the
    same two index arrays.  The second component is the process-wide
    generator after the call. *)
Definition train_test_split (X y : list A) (test_size : float)
    (random_state : option Z) (global : RandomState)
  : result (Split A) * RandomState :=
  if negb (length X =? length y) then (Raise ValueError, global)
  else
    let n_samples := length X in
    match validate_shuffle_split n_samples test_size with
    | Raise e => (Raise e, global)
    | Ok (n_train, n_test) =>
        let rng := check_random_state random_state global in
        let (perm, rng') := permutation rng n_samples in
        let ind_test := Numpy.slice None (Some n_test) perm in
        let ind_train :=
          Numpy.slice (Some n_test) (Some (n_test + n_train)%Z) perm in
        let global' :=
          match random_state with Some _ => global | None => rng' end in
        (Xtr <-! Numpy.index_rows X ind_train ;;
         Xte <-! Numpy.index_rows X ind_test ;;
         ytr <-! Numpy.index_rows y ind_train ;;
         yte <-! Numpy.index_rows y ind_test ;;
         Ok {| X_train := Xtr; X_test := Xte;
               y_train := ytr; y_test := yte |},
         global')
    end.

End Shuffle.

End Sklearn.

(* ===================================================================== *)
(** ** Keras: layers, training calls, prediction *)
(* ===================================================================== *)

Module Keras.

(** The two kinds of layer the notebook stacks, with the arguments it
    passes: [Dense(units)] and [LSTM(units, activation=...)]. *)
Inductive Layer : Type :=
  | Dense (units : nat)
  | LSTM (units : nat) (activation : option string).

(** [Sequential([...])] *)
Definition Sequential : Type := list Layer.

(** The keyword arguments of [model.compile]. *)
Record CompileArgs : Type := {
  optimizer : string;
  loss : string;
}.

(** A batch of inputs: an array of shape (examples, features) or of shape
    (examples, time steps, features). *)
Inductive tensor (A : Type) : Type :=
  | T2 (rows : list (list A))
  | T3 (seqs : list (list (list A))).

Arguments T2 {A} rows.
Arguments T3 {A} seqs.

(** The arguments of [model.fit]. *)
Record FitArgs (A : Type) : Type := {
  fit_x : tensor A;
  fit_y : list (list A);
  epochs : nat;
  batch_size : nat;
  validation_split : float;
  verbose : nat;
}.

Arguments fit_x {A} f.
Arguments fit_y {A} f.
Arguments epochs {A} f.
Arguments batch_size {A} f.
Arguments validation_split {A} f.
Arguments verbose {A} f.

(** The trainable coefficients of a model: entry [(i, j)] of tensor [k] of
    layer [l].  A Dense layer has a kernel (tensor 0) and a bias (tensor 1);
    an LSTM layer has a kernel, a recurrent kernel and a bias. *)
Definition Weights (A : Type) : Type := nat -> nat -> nat -> nat -> A.

(** Modelled from the spec: the validation hold-out of the training engine,
    which is Keras's, not code of the notebook.  A fraction
    [validation_split] of the examples passed to [fit], the last ones, is
    held out: the first [int(n * (1 - validation_split))] are trained on. *)
Definition validation_holdout (n : nat) (validation_split : float)
  : result (nat * nat) :=
  split_at <-! float_trunc
    (float_of_Z (Z.of_nat n) * (1 - validation_split))%float ;;
  Ok (Z.to_nat split_at, n - Z.to_nat split_at).

(** Gradient steps in one epoch: one per batch, the last batch possibly
    short. *)
Definition steps_per_epoch (n_train batch_size : nat) : nat :=
  (n_train + batch_size - 1) / batch_size.

Section Forward.
Context {A : Type} `{Num A}.

(** The gate activation of the LSTM layer (its default, the logistic
    function) and the activations that are named by a string. *)
Variable recurrent_activation : A -> A.
Variable named_activation : string -> A -> A.

(** [activation=None] is the identity. *)
Definition activation_fn (activation : option string) (a : A) : A :=
  match activation with
  | None => a
  | Some name => named_activation name a
  end.

Definition sum_list (l : list A) : A := foldr nadd (of_int 0) l.

(** The inner product of a row with column [j] of a kernel. *)
Definition dot (x : list A) (kernel : nat -> nat -> A) (j : nat) : A :=
  sum_list (imap (fun i xi => (xi * kernel i j)%num) x).

(** Modelled from the spec: a Dense layer is an affine map to [units]
    numbers, [x . kernel + bias]. *)
Definition dense_row (w : nat -> nat -> nat -> A) (units : nat)
    (x : list A) : list A :=
  map (fun j => (dot x (w 0) j + w 1 0 j)%num) (seq 0 units).

(** Modelled from the spec: one time step of an LSTM layer with [units]
    units, on the recurrent state [(h, c)]: input, forget and output gates
    and the candidate, read from the four blocks of [units] columns. *)
Definition lstm_step (w : nat -> nat -> nat -> A) (units : nat)
    (activation : option string) (hc : list A * list A) (x : list A)
  : list A * list A :=
  let (h, c) := hc in
  let z j := (dot x (w 0) j + dot h (w 1) j + w 2 0 j)%num in
  let c' :=
    map (fun k =>
           let i := recurrent_activation (z k) in
           let f := recurrent_activation (z (units + k)) in
           let g := activation_fn activation (z (2 * units + k)) in
           (f * nth k c (of_int 0) + i * g)%num)
        (seq 0 units) in
  let h' :=
    map (fun k =>
           let o := recurrent_activation (z (3 * units + k)) in
           (o * activation_fn activation (nth k c' (of_int 0)))%num)
        (seq 0 units) in
  (h', c').

(** The state every example starts from: zeros. *)
Definition initial_hc (units : nat) : list A * list A :=
  (replicate units (of_int 0), replicate units (of_int 0)).

(** Modelled from the spec: the LSTM layer on one example, a sequence of
    time steps: the steps are folded from the zero state, and the layer
    returns the last [h].  Nothing of the state is kept for the next
    example. *)
Definition lstm_example (w : nat -> nat -> nat -> A) (units : nat)
    (activation : option string) (steps : list (list A)) : list A :=
  (foldl (lstm_step w units activation) (initial_hc units) steps).1.

(** Modelled from the spec: a layer applied to a batch, example by example.
    An LSTM layer needs the time axis. *)
Definition layer_forward (l : Layer) (w : nat -> nat -> nat -> A)
    (t : tensor A) : result (tensor A) :=
  match l, t with
  | Dense units, T2 rows => Ok (T2 (map (dense_row w units) rows))
  | Dense units, T3 seqs => Ok (T3 (map (map (dense_row w units)) seqs))
  | LSTM units activation, T3 seqs =>
      Ok (T2 (map (lstm_example w units activation) seqs))
  | LSTM _ _, T2 _ => Raise ValueError
  end.

(** Modelled from the spec: the layers of a model, applied in order, layer
    [k] with its own weights. *)
Fixpoint forward (layers : Sequential) (k : nat) (w : Weights A)
    (t : tensor A) : result (tensor A) :=
  match layers with
  | [] => Ok t
  | l :: rest => t' <-! layer_forward l (w k) t ;; forward rest (S k) w t'
  end.

(** Modelled from the spec: [model.predict(x)], with the coefficients the
    model has. *)
Definition predict (model : Sequential) (w : Weights A) (x : tensor A)
  : result (tensor A) :=
  forward model 0 w x.

End Forward.

(** [a.shape] of a batch (of the first example, for the inner axes). *)
Definition shape {A : Type} (t : tensor A) : list nat :=
  match t with
  | T2 rows => [length rows; (Numpy.shape2 rows).2]
  | T3 seqs =>
      [length seqs; (Numpy.shape2 seqs).2;
       match seqs with
       | s :: _ => (Numpy.shape2 s).2
       | [] => 0
       end]
  end.

End Keras.

(* ===================================================================== *)
(** ** The cells of the ML pipeline *)
(* ===================================================================== *)

Module Pipeline.

Import Lorenz Numpy Sklearn Keras.

(** The calls a cell makes to the training engine, in order. *)
Inductive Call (A : Type) : Type :=
  | CompileCall (model : Sequential) (args : CompileArgs)
  | FitCall (model : Sequential) (args : FitArgs A)
  | PredictCall (model : Sequential) (x : tensor A).

Arguments CompileCall {A} model args.
Arguments FitCall {A} model args.
Arguments PredictCall {A} model x.

(** A cell run against the engine: the calls made, and a value or the
    exception that stopped the cell. *)
Definition Engine (A X : Type) : Type := list (Call A) * result X.

Definition eret {A X : Type} (a : X) : Engine A X := ([], Ok a).

Definition ebind {A X Y : Type} (m : Engine A X) (k : X -> Engine A Y)
  : Engine A Y :=
  match m with
  | (calls, Ok a) => let (calls', r) := k a in (calls ++ calls', r)
  | (calls, Raise e) => (calls, Raise e)
  end.

Definition lift {A X : Type} (r : result X) : Engine A X := ([], r).

Notation "x <- m ;;; k" := (ebind m (fun x => k))
  (at level 60, m at next level, right associativity, only parsing).

(** The [model.fit] calls among the calls of a cell. *)
Definition fit_calls {A : Type} (calls : list (Call A))
  : list (Sequential * FitArgs A) :=
  omap (fun c => match c with FitCall m a => Some (m, a) | _ => None end)
       calls.

(** The [model.compile] calls among the calls of a cell. *)
Definition compile_calls {A : Type} (calls : list (Call A))
  : list (Sequential * CompileArgs) :=
  omap (fun c => match c with CompileCall m a => Some (m, a) | _ => None end)
       calls.

(** The [model.predict] calls among the calls of a cell. *)
Definition predict_calls {A : Type} (calls : list (Call A))
  : list (Sequential * tensor A) :=
  omap (fun c => match c with PredictCall m x => Some (m, x) | _ => None end)
       calls.

(** The two prediction arrays the last code cell plots. *)
Record Predictions (A : Type) : Type := {
  baseline_predictions : tensor A;
  lstm_predictions : tensor A;
}.

Arguments baseline_predictions {A} p.
Arguments lstm_predictions {A} p.

(** The literal [0.2] of [test_size=0.2] and [validation_split=0.2]. *)
Definition lit_0_2 : float := of_lit (2 # 10).

Section Cells.
Context {A : Type} `{Num A}.

(** The pseudo-random generator of the split. *)
Variable RandomState : Type.
Variable seeded : Z -> RandomState.
Variable permutation : RandomState -> nat -> list nat * RandomState.

(** The training engine: the activations of its layers, and the
    coefficients a model has after [fit]. *)
Variable recurrent_activation : A -> A.
Variable named_activation : string -> A -> A.
Variable trained : Sequential -> CompileArgs -> FitArgs A -> Weights A.

(** [data = solution.y.T]: row [i] is the state at evaluation time [i]. *)
Definition data_of (solution_y : list (list A)) : list (list A) :=
  transpose solution_y.

(** The two arrays handed to the split: [data[:-1]] and [data[1:]]. *)
Definition dataset (data : list (list A))
  : list (list A) * list (list A) :=
  (slice None (Some (-1)%Z) data, slice (Some 1%Z) None data).

(** [X_train, X_test, y_train, y_test = train_test_split(data[:-1],
    data[1:], test_size=0.2, random_state=42)] *)
Definition split_cell (data : list (list A)) (global : RandomState)
  : result (Split (list A)) * RandomState :=
  train_test_split RandomState seeded permutation
    (dataset data).1 (dataset data).2 lit_0_2 (Some 42%Z) global.

(** [Sequential([Dense(3)])] *)
Definition baseline_model : Sequential := [Dense 3].

(** [Sequential([LSTM(50, activation=None), Dense(3)])] *)
Definition lstm_model : Sequential := [LSTM 50 None; Dense 3].

(** [compile(optimizer='adam', loss='mean_absolute_error')], the same for
    both models. *)
Definition compile_args : CompileArgs :=
  {| optimizer := "adam"; loss := "mean_absolute_error" |}.

(** [fit(x, y, epochs=50, batch_size=32, validation_split=0.2,
    verbose=0)], the same keywords for both models. *)
Definition fit_args (x : tensor A) (y : list (list A)) : FitArgs A :=
  {| fit_x := x; fit_y := y; epochs := 50; batch_size := 32;
     validation_split := lit_0_2; verbose := 0 |}.

(** [X.reshape(X.shape[0], 1, X.shape[1])] *)
Definition with_time_axis (X : list (list A))
  : result (list (list (list A))) :=
  reshape3 (shape2 X).1 1 (shape2 X).2 X.

(** [model.compile(...)]: recorded, nothing returned. *)
Definition compile (model : Sequential) (args : CompileArgs)
  : Engine A unit :=
  ([CompileCall model args], Ok tt).

(** [model.fit(...)]: recorded; the model has its trained coefficients
    afterwards. *)
Definition fit (model : Sequential) (c : CompileArgs) (args : FitArgs A)
  : Engine A (Weights A) :=
  ([FitCall model args], Ok (trained model c args)).

(** [model.predict(x)]: recorded, and the forward pass of the model. *)
Definition predict_with (model : Sequential) (w : Weights A)
    (x : tensor A) : Engine A (tensor A) :=
  ([PredictCall model x],
   predict recurrent_activation named_activation model w x).

(** The cell that builds, trains and evaluates the two models. *)
Definition models_cell (s : Split (list A)) : Engine A (Predictions A) :=
  _ <- compile baseline_model compile_args ;;;
  wb <- fit baseline_model compile_args
          (fit_args (T2 (X_train s)) (y_train s)) ;;;
  _ <- compile lstm_model compile_args ;;;
  X3 <- lift (with_time_axis (X_train s)) ;;;
  wl <- fit lstm_model compile_args (fit_args (T3 X3) (y_train s)) ;;;
  bp <- predict_with baseline_model wb (T2 (X_test s)) ;;;
  Xt3 <- lift (with_time_axis (X_test s)) ;;;
  lp <- predict_with lstm_model wl (T3 Xt3) ;;;
  eret {| baseline_predictions := bp; lstm_predictions := lp |}.

End Cells.

End Pipeline.

(* ===================================================================== *)
(** ** The cells of the attractor and of the two nearby trajectories *)
(* ===================================================================== *)

Module Cells.

Import Lorenz.

#[local] Set Warnings "-abstract-large-number".

Section Setup.
Context {A : Type} `{Num A}.

(** First code cell: [initial_state = [1.0, 1.0, 1.0]]. *)
Definition attractor_initial_state : list A :=
  [of_lit 1; of_lit 1; of_lit 1].

(** First code cell: [t_span = [0.0, 100.0]]. *)
Definition attractor_t_span : list A := [of_lit 0; of_lit 100].

(** First code cell: [np.linspace(t_span[0], t_span[1], 10000)]. *)
Definition attractor_t_eval : list A :=
  match attractor_t_span with
  | [start; stop] => linspace start stop 10000
  | _ => []
  end.

(** Second code cell: [t_span = [0.0, 40.0]]. *)
Definition nearby_t_span : list A := [of_lit 0; of_lit 40].

(** Second code cell: [np.linspace(t_span[0], t_span[1], 10000)]. *)
Definition nearby_t_eval : list A :=
  match nearby_t_span with
  | [start; stop] => linspace start stop 10000
  | _ => []
  end.

(** Second code cell: [initial_condition_A = [1.0, 1.0, 1.0]]. *)
Definition initial_condition_A : list A :=
  [of_lit 1; of_lit 1; of_lit 1].

(** Second code cell: [initial_condition_B = [1.0, 1.0, 1.0001]]. *)
Definition initial_condition_B : list A :=
  [of_lit 1; of_lit 1; of_lit (10001 # 10000)].

End Setup.

End Cells.

(* ===================================================================== *)
(** ** The cell that plots actual against predicted values *)
(* ===================================================================== *)

Module Plots.

(** One [plt.plot(values, label=...)]. *)
Record Line (A : Type) : Type := {
  label : string;
  points : list A;
}.

Arguments label {A} l.
Arguments points {A} l.

(** One panel: [plt.subplot(3, 2, position)], its lines, title and axis
    labels. *)
Record Subplot (A : Type) : Type := {
  position : nat;
  lines : list (Line A);
  title : string;
  xlabel : string;
  ylabel : string;
}.

Arguments position {A} s.
Arguments lines {A} s.
Arguments title {A} s.
Arguments xlabel {A} s.
Arguments ylabel {A} s.

Section Panels.
Context {A : Type}.

(** [a[:, j]] of a two-dimensional array: entry [j] of every row;
    IndexError when the array has no column [j]. *)
Fixpoint take_column (a : list (list A)) (j : nat) : result (list A) :=
  match a with
  | [] => Ok []
  | r :: rest =>
      match r !! j with
      | Some v => c <-! take_column rest j ;; Ok (v :: c)
      | None => Raise IndexError
      end
  end.

(** One panel of the cell: the actual values of column [j] and the values
    a model predicted for it, plotted against the index. *)
Definition panel (pos : nat) (actual predicted : list (list A)) (j : nat)
    (actual_label predicted_label panel_title : string)
  : result (Subplot A) :=
  a <-! take_column actual j ;;
  p <-! take_column predicted j ;;
  Ok {| position := pos;
        lines := [ {| label := actual_label; points := a |};
                   {| label := predicted_label; points := p |} ];
        title := panel_title;
        xlabel := "Time Step";
        ylabel := "Value" |}.

(** The plotting cell: six panels on a 3 by 2 grid, in the order the cell
    draws them. *)
Definition plot_cell (y_test baseline_predictions lstm_predictions
                      : list (list A)) : result (list (Subplot A)) :=
  p1 <-! panel 1 y_test baseline_predictions 0
           "Actual X" "Predicted X" "Baseline Model (Dense Layers) - X" ;;
  p2 <-! panel 3 y_test baseline_predictions 1
           "Actual Y" "Predicted Y" "Baseline Model (Dense Layers) - Y" ;;
  p3 <-! panel 2 y_test lstm_predictions 0
           "Actual X" "Predicted X" "LSTM Model - X" ;;
  p4 <-! panel 4 y_test lstm_predictions 1
           "Actual Y" "Predicted Y" "LSTM Model - Y" ;;
  p5 <-! panel 5 y_test baseline_predictions 2
           "Actual Z" "Predicted Z" "Baseline Model (Dense Layers) - Z" ;;
  p6 <-! panel 6 y_test lstm_predictions 2
           "Actual Z" "Predicted Z" "LSTM Model - Z" ;;
  Ok [p1; p2; p3; p4; p5; p6].

End Panels.

End Plots.

(* ===================================================================== *)
(** ** Sample inputs *)
(* ===================================================================== *)

Module Samples.

Import Sklearn Keras.

(** A generator whose state is a counter and whose shuffle of [range(n)] is
    [n-1, ..., 1, 0]. *)
Definition counter_seeded (seed : Z) : nat := Z.to_nat seed.

Definition reversing_permutation (rng : nat) (n : nat) : list nat * nat :=
  (rev (seq 0 n), S rng).

(** A trajectory of [n] states, the state at step [i] being
    (i, i + 1, i + 2). *)
Definition ramp (n : nat) : list (list float) :=
  map (fun i => [float_of_Z (Z.of_nat i);
                 float_of_Z (Z.of_nat i + 1);
                 float_of_Z (Z.of_nat i + 2)])
      (seq 0 n).

(** A split of three examples: two for training and one for testing. *)
Definition small_split : Split (list float) := {|
  X_train := [[float_of_Z 0; float_of_Z 1; float_of_Z 2];
              [float_of_Z 2; float_of_Z 3; float_of_Z 4]];
  X_test := [[float_of_Z 1; float_of_Z 2; float_of_Z 3]];
  y_train := [[float_of_Z 1; float_of_Z 2; float_of_Z 3];
              [float_of_Z 3; float_of_Z 4; float_of_Z 5]];
  y_test := [[float_of_Z 2; float_of_Z 3; float_of_Z 4]];
|}.

(** Coefficients that are all one, whatever the training data. *)
Definition unit_weights (model : Sequential) (c : CompileArgs)
    (f : FitArgs float) : Weights float :=
  fun _ _ _ _ => float_of_Z 1.

(** Activations standing in for the engine's: the identity. *)
Definition linear (a : float) : float := a.

Definition linear_named (name : string) (a : float) : float := a.

End Samples.

(* ===================================================================== *)
(** * Properties *)
(* ===================================================================== *)

Import Lorenz Numpy Sklearn Keras Pipeline Samples.

(** ** The vector field *)

Section FieldFacts.
Context {A : Type} `{Num A}.

(** C1: on a state (x, y, z), with the parameters in scope, [lorenz]
    returns the three derivatives sigma (y - x), x (rho - z) - y and
    x y - beta z, in this order. *)
Theorem lorenz_vector_field (g : Globals A) (t x y z : A) :
  lorenz g t [x; y; z]
  = Ok [(sigma g * (y - x))%num;
        (x * (rho g - z) - y)%num;
        (x * y - beta g * z)%num].
Proof. reflexivity. Qed.

(** The unpacking of the state refuses any other number of entries. *)
Lemma lorenz_raises (g : Globals A) (t : A) (state : list A) :
  length state <> 3 -> lorenz g t state = Raise ValueError.
Proof.
  destruct state as [|x [|y [|z [|u rest]]]]; simpl; intros Hlen;
    try reflexivity.
  now contradiction Hlen.
Qed.

(** The cell-level function and the one with explicit parameters are the
    same field. *)
Lemma lorenz_system_lorenz (g : Globals A) (t : A) (state : list A) :
  lorenz_system t state (sigma g) (beta g) (rho g) = lorenz g t state.
Proof. reflexivity. Qed.

(** C9: the time argument is ignored: at one state, any two times give
    the same result. *)
Theorem lorenz_ignores_time (g : Globals A) (t1 t2 : A) (state : list A) :
  lorenz g t1 state = lorenz g t2 state.
Proof. reflexivity. Qed.

Lemma linspace_length (start stop : A) (num : nat) :
  length (linspace start stop num) = num.
Proof.
  destruct num as [|[|div]]; try reflexivity.
  unfold linspace.
  rewrite length_app, length_map, length_seq. simpl. lia.
Qed.

(** The grid of evaluation times has 1000 points. *)
Lemma t_eval_length : length (t_eval (A:=A)) = 1000.
Proof. unfold t_eval, t_span. apply linspace_length. Qed.

End FieldFacts.

(** ** Calls of the vector field in the namespace *)

Section NamespaceFacts.
Context {A : Type} `{Num A}.

(** With the three parameters bound, a call computes the field of these
    values and leaves the namespace as it found it. *)
Lemma lorenz_call_bound (ns : gmap string A) (s b r t : A)
    (state : list A) :
  ns !! "sigma" = Some s -> ns !! "beta" = Some b -> ns !! "rho" = Some r ->
  Namespace.lorenz_call t state ns
  = (lorenz {| sigma := s; beta := b; rho := r |} t state, ns).
Proof.
  intros Hs Hb Hr.
  destruct state as [|x [|y [|z [|u rest]]]]; try reflexivity.
  unfold Namespace.lorenz_call, Namespace.rbind, Namespace.load_global,
    Namespace.rret.
  now rewrite Hs, Hr, Hb.
Qed.

(** A call before any cell has bound [sigma] raises NameError. *)
Lemma lorenz_call_unbound (ns : gmap string A) (t x y z : A) :
  ns !! "sigma" = None ->
  Namespace.lorenz_call t [x; y; z] ns = (Raise NameError, ns).
Proof.
  intros Hs.
  unfold Namespace.lorenz_call, Namespace.rbind, Namespace.load_global.
  now rewrite Hs.
Qed.

(** The assignment of the ML cell binds the three parameters, whatever the
    namespace held before. *)
Lemma ml_parameters_bound (ns : gmap string A) :
  exists ns',
    Namespace.ml_parameters ns = (Ok tt, ns') /\
    ns' !! "sigma" = Some (sigma ml_globals) /\
    ns' !! "beta" = Some (beta ml_globals) /\
    ns' !! "rho" = Some (rho ml_globals).
Proof.
  eexists. split; [reflexivity|].
  repeat split.
  - rewrite lookup_insert_ne, lookup_insert_ne by discriminate.
    apply lookup_insert_eq.
  - rewrite lookup_insert_ne by discriminate. apply lookup_insert_eq.
  - apply lookup_insert_eq.
Qed.

(** C8: in a namespace that binds the three parameters, a call on a state
    of three numbers returns a vector of exactly three entries and leaves
    the namespace as it was; a second call, made in the namespace the first
    one left, returns the same vector; and so does a call at any time in
    any namespace that binds the same three parameter values, whatever else
    it holds. *)
Theorem lorenz_call_two_runs (ns : gmap string A) (s b r t : A)
    (state : list A) :
  ns !! "sigma" = Some s -> ns !! "beta" = Some b -> ns !! "rho" = Some r ->
  length state = 3 ->
  exists out,
    Namespace.lorenz_call t state ns = (Ok out, ns) /\
    length out = 3 /\
    Namespace.lorenz_call t state (Namespace.lorenz_call t state ns).2
    = (Ok out, ns) /\
    (forall (ns' : gmap string A) (t' : A),
       ns' !! "sigma" = Some s -> ns' !! "beta" = Some b ->
       ns' !! "rho" = Some r ->
       Namespace.lorenz_call t' state ns' = (Ok out, ns')) /\
    lorenz {| sigma := s; beta := b; rho := r |} t state = Ok out.
Proof.
  intros Hs Hb Hr Hlen.
  destruct state as [|x [|y [|z [|u rest]]]]; try discriminate Hlen.
  eexists.
  assert (Hrun : forall (ns' : gmap string A) (t' : A),
             ns' !! "sigma" = Some s -> ns' !! "beta" = Some b ->
             ns' !! "rho" = Some r ->
             Namespace.lorenz_call t' [x; y; z] ns'
             = (Ok [(s * (y - x))%num; (x * (r - z) - y)%num;
                    (x * y - b * z)%num], ns')).
  { intros ns' t' Hs' Hb' Hr'.
    now rewrite (lorenz_call_bound ns' s b r t' _ Hs' Hb' Hr'). }
  split; [exact (Hrun ns t Hs Hb Hr)|].
  split; [reflexivity|].
  split; [rewrite (Hrun ns t Hs Hb Hr); exact (Hrun ns t Hs Hb Hr)|].
  split; [exact Hrun|reflexivity].
Qed.

End NamespaceFacts.

Lemma lorenz_call_two_runs_witness :
  exists out,
    Namespace.lorenz_call (A:=float) (of_int 0) initial_state
      (Namespace.ml_parameters (A:=float) ∅).2
    = (Ok out, (Namespace.ml_parameters (A:=float) ∅).2) /\
    length out = 3 /\
    lorenz (A:=float) ml_globals (of_int 0) initial_state = Ok out.
Proof.
  destruct (lorenz_call_two_runs (A:=float)
              (Namespace.ml_parameters (A:=float) ∅).2
              (of_int 10) (of_lit (2667 # 1000)) (of_int 28)
              (of_int 0) initial_state)
    as (out & Hcall & Hlen & _ & _ & Hfield);
    try (vm_compute; reflexivity).
  exists out. split; [exact Hcall|]. split; [exact Hlen|exact Hfield].
Defined.

(** ** The model against the interpreter *)

(** The decimal literals of the cell are the doubles Python reads them as. *)
Example decimal_literals :
  of_lit (A:=float) (2667 # 1000) = 0x1.55604189374bcp+1%float /\
  of_lit (A:=float) (105 # 100) = 0x1.0cccccccccccdp+0%float /\
  lit_0_2 = 0x1.999999999999ap-3%float /\
  beta (attractor_globals (A:=float)) = 0x1.5555555555555p+1%float.
Proof. repeat split; vm_compute; reflexivity. Qed.

(** [lorenz(0, [0, 1, 1.05])] is [[10.0, -1.0, -2.80035]]. *)
Example lorenz_at_initial_state :
  lorenz (A:=float) ml_globals (of_int 0) initial_state
  = Ok [10%float; (-1)%float; (-0x1.6671de69ad42cp+1)%float].
Proof. vm_compute. reflexivity. Qed.

(** The second evaluation time is the double of 100 / 999. *)
Example t_eval_second :
  t_eval (A:=float) !! 1 = Some 0x1.9a02900419a03p-4%float.
Proof. vm_compute. reflexivity. Qed.

(** [ceil(0.2 * n)] test examples: 200 of 999 and 2 of 6; one example
    cannot be split. *)
Example split_sizes :
  validate_shuffle_split 999 lit_0_2 = Ok (799%Z, 200%Z) /\
  validate_shuffle_split 6 lit_0_2 = Ok (4%Z, 2%Z) /\
  validate_shuffle_split 1 lit_0_2 = Raise ValueError.
Proof. repeat split; vm_compute; reflexivity. Qed.

(** ** The parameters of the simulation *)

(** What the cell of the ML pipeline sets up, read at the rationals. *)
Lemma simulation_setup :
  sigma (ml_globals (A:=Q)) = 10%Q /\
  rho (ml_globals (A:=Q)) = 28%Q /\
  initial_state (A:=Q) = [0%Q; 1%Q; (105 # 100)%Q] /\
  t_span (A:=Q) = [0%Q; 100%Q] /\
  length (t_eval (A:=Q)) = 1000 /\
  last (t_eval (A:=Q)) = Some 100%Q /\
  (forall i, i < 999 ->
     exists ti, t_eval (A:=Q) !! i = Some ti /\
                (ti == inject_Z (Z.of_nat i) * (100 # 999))%Q).
Proof.
  do 6 (split; [reflexivity|]).
  intros i Hi. unfold t_eval, t_span, linspace.
  rewrite lookup_app_l by (rewrite length_map, length_seq; lia).
  rewrite list_lookup_fmap, lookup_seq_lt by lia.
  eexists. split; [reflexivity|].
  unfold of_int, nadd, nsub, nmul, ndiv, Num_Q, Qeq. simpl. lia.
Qed.

(** C2: in the cell of the ML pipeline the coefficient [beta] is the
    literal 2.667, which is not 8/3: neither as a rational nor as the double
    the first two cells compute from [8.0 / 3.0].  At the initial state
    (0, 1, 1.05) the third derivative is -2.80035, where beta = 8/3 gives
    -2.8. *)
Theorem ml_beta_is_not_eight_thirds :
  (beta (ml_globals (A:=Q)) == 2667 # 1000)%Q /\
  ~ (beta (ml_globals (A:=Q)) == 8 # 3)%Q /\
  (beta (attractor_globals (A:=Q)) == 8 # 3)%Q /\
  PrimFloat.eqb (beta (ml_globals (A:=float)))
                (beta (attractor_globals (A:=float))) = false /\
  (exists dx dy dz,
     lorenz (A:=Q) ml_globals 0%Q initial_state = Ok [dx; dy; dz] /\
     (dz == - (280035 # 100000))%Q) /\
  (exists dx dy dz,
     lorenz (A:=Q) attractor_globals 0%Q initial_state = Ok [dx; dy; dz] /\
     (dz == - (28 # 10))%Q).
Proof.
  split; [reflexivity|].
  split; [intros Heq; vm_compute in Heq; discriminate Heq|].
  split; [reflexivity|].
  split; [vm_compute; reflexivity|].
  split; do 3 eexists; (split; [reflexivity|]); reflexivity.
Qed.

(** ** Slices and the dataset builder *)

Section ArrayFacts.
Context {A : Type}.

Lemma clip_index_nat (n k : nat) :
  clip_index n (Z.of_nat k) = Nat.min n k.
Proof.
  unfold clip_index.
  destruct (Z.ltb_spec (Z.of_nat k) 0); lia.
Qed.

(** [l[:-1]] drops the last entry. *)
Lemma slice_init (l : list A) :
  slice None (Some (-1)%Z) l = take (length l - 1) l.
Proof.
  unfold slice. cbn [from_option]. rewrite drop_0, Nat.sub_0_r.
  f_equal. unfold clip_index.
  destruct (Z.ltb_spec (-1) 0); lia.
Qed.

(** [l[1:]] drops the first entry. *)
Lemma slice_tail (l : list A) :
  slice (Some 1%Z) None l = drop 1 l.
Proof.
  unfold slice. cbn [from_option].
  change 1%Z with (Z.of_nat 1). rewrite clip_index_nat.
  destruct l as [|a l]; [reflexivity|].
  replace (Nat.min (length (a :: l)) 1) with 1 by (simpl; lia).
  apply take_ge. rewrite length_drop. lia.
Qed.

(** [l[:k]] and [l[k:n]], for [n] the length of [l], cut [l] in two, for
    every int [k]. *)
Lemma slice_cut (l : list A) (k m : Z) :
  (k + m)%Z = Z.of_nat (length l) ->
  slice None (Some k) l = take (clip_index (length l) k) l /\
  slice (Some k) (Some (k + m)%Z) l = drop (clip_index (length l) k) l.
Proof.
  intros Hsum. unfold slice. cbn [from_option]. split.
  - now rewrite drop_0, Nat.sub_0_r.
  - rewrite Hsum, clip_index_nat, Nat.min_id.
    apply take_ge. rewrite length_drop. lia.
Qed.

Lemma clip_index_le (n : nat) (k : Z) : clip_index n k <= n.
Proof. unfold clip_index. lia. Qed.

End ArrayFacts.

Section DatasetFacts.
Context {A : Type}.

(** C3: a trajectory of N >= 2 samples gives N - 1 examples; example i has
    sample i as its input and sample i + 1 as its label, for i = 0..N-2; so
    the label of example i is the input of example i + 1. *)
Theorem dataset_pairs (data : list (list A)) :
  2 <= length data ->
  length (dataset data).1 = length data - 1 /\
  length (dataset data).2 = length data - 1 /\
  (forall i, i < length data - 1 ->
     exists a b,
       data !! i = Some a /\ data !! (i + 1) = Some b /\
       (dataset data).1 !! i = Some a /\
       (dataset data).2 !! i = Some b) /\
  (forall i, i + 1 < length data - 1 ->
     exists b,
       (dataset data).2 !! i = Some b /\
       (dataset data).1 !! (i + 1) = Some b).
Proof.
  intros HN. unfold dataset. cbn [fst snd].
  rewrite slice_init, slice_tail.
  split; [rewrite length_take; lia|].
  split; [rewrite length_drop; lia|].
  split.
  - intros i Hi.
    destruct (lookup_lt_is_Some_2 data i) as [a Ha]; [lia|].
    destruct (lookup_lt_is_Some_2 data (i + 1)) as [b Hb]; [lia|].
    exists a, b. repeat split; try assumption.
    + now rewrite lookup_take_lt.
    + now rewrite lookup_drop, Nat.add_comm.
  - intros i Hi.
    destruct (lookup_lt_is_Some_2 data (i + 1)) as [b Hb]; [lia|].
    exists b. split.
    + now rewrite lookup_drop, Nat.add_comm.
    + now rewrite lookup_take_lt by lia.
Qed.

(** The solver returns one row per coordinate; transposed, that is one
    state of three numbers per evaluation time. *)
Lemma data_of_rows (xs ys zs : list A) :
  length ys = length xs -> length zs = length xs ->
  length (data_of [xs; ys; zs]) = length xs /\
  Forall (fun r => length r = 3) (data_of [xs; ys; zs]) /\
  (forall i x y z,
     xs !! i = Some x -> ys !! i = Some y -> zs !! i = Some z ->
     data_of [xs; ys; zs] !! i = Some [x; y; z]).
Proof.
  intros Hys Hzs. unfold data_of, transpose. cbn [shape2 snd].
  split; [now rewrite length_map, length_seq|].
  split.
  - apply Forall_map, Forall_seq. intros j Hj. cbn beta.
    destruct (lookup_lt_is_Some_2 xs j) as [x Hx]; [lia|].
    destruct (lookup_lt_is_Some_2 ys j) as [y Hy]; [lia|].
    destruct (lookup_lt_is_Some_2 zs j) as [z Hz]; [lia|].
    unfold column. cbn [omap list_omap]. now rewrite Hx, Hy, Hz.
  - intros i x y z Hx Hy Hz.
    assert (Hi : i < length xs) by (apply lookup_lt_is_Some; eauto).
    rewrite list_lookup_fmap, lookup_seq_lt by exact Hi.
    simpl. unfold column. cbn [omap list_omap]. rewrite Hx, Hy, Hz.
    reflexivity.
Qed.

End DatasetFacts.

Lemma dataset_pairs_witness :
  2 <= length [[0%Z; 1%Z; 2%Z]; [3%Z; 4%Z; 5%Z]; [6%Z; 7%Z; 8%Z]] /\
  (dataset [[0%Z; 1%Z; 2%Z]; [3%Z; 4%Z; 5%Z]; [6%Z; 7%Z; 8%Z]]).1
    !! 1 = Some [3%Z; 4%Z; 5%Z] /\
  (dataset [[0%Z; 1%Z; 2%Z]; [3%Z; 4%Z; 5%Z]; [6%Z; 7%Z; 8%Z]]).2
    !! 0 = Some [3%Z; 4%Z; 5%Z] /\
  length (dataset [[0%Z; 1%Z; 2%Z]; [3%Z; 4%Z; 5%Z]; [6%Z; 7%Z; 8%Z]]).1
    = 2.
Proof.
  pose proof (dataset_pairs
                [[0%Z; 1%Z; 2%Z]; [3%Z; 4%Z; 5%Z]; [6%Z; 7%Z; 8%Z]]
                ltac:(simpl; lia)) as (Hlen & _ & _ & _).
  split; [simpl; lia|].
  split; [reflexivity|].
  split; [reflexivity|].
  exact Hlen.
Defined.

(** ** Indexing with an index array *)

Section IndexFacts.
Context {A : Type}.

(** [index_rows] returns exactly the rows found at the indices. *)
Lemma index_rows_Forall2 (l : list A) (indices : list nat) (r : list A) :
  index_rows l indices = Ok r <->
  Forall2 (fun i a => l !! i = Some a) indices r.
Proof.
  revert r. induction indices as [|i rest IH]; intros r; simpl.
  - split.
    + intros [= <-]. constructor.
    + intros Hf. inversion Hf. reflexivity.
  - destruct (l !! i) as [a|] eqn:Hi.
    + destruct (index_rows l rest) as [r'|e] eqn:Hr; simpl.
      * split.
        -- intros [= <-]. constructor; [assumption|]. now apply IH.
        -- intros Hf. inversion Hf as [|? b ? r'' Hb Hrest]; subst.
           apply IH in Hrest. congruence.
      * split; [discriminate|].
        intros Hf. inversion Hf as [|? b ? r'' Hb Hrest]; subst.
        apply IH in Hrest. discriminate.
    + split; [discriminate|].
      intros Hf. inversion Hf; congruence.
Qed.

(** Indices within bounds raise nothing. *)
Lemma index_rows_total (l : list A) (indices : list nat) :
  Forall (fun i => i < length l) indices ->
  exists r, index_rows l indices = Ok r.
Proof.
  induction 1 as [|i rest Hi _ [r Hr]]; simpl.
  - now exists [].
  - destruct (lookup_lt_is_Some_2 l i Hi) as [a ->].
    rewrite Hr. simpl. now eexists.
Qed.

Lemma rows_omap (l : list A) (indices : list nat) (r : list A) :
  Forall2 (fun i a => l !! i = Some a) indices r ->
  r = omap (fun i => l !! i) indices.
Proof.
  induction 1 as [|i a rest r Hi _ IH]; simpl; [reflexivity|].
  now rewrite Hi, IH.
Qed.

Lemma omap_lookup_seq (l : list A) :
  omap (fun i => l !! i) (seq 0 (length l)) = l.
Proof.
  induction l as [|a l IH]; [reflexivity|].
  cbn [length seq omap list_omap lookup list_lookup]. f_equal.
  rewrite <- fmap_S_seq.
  rewrite <- IH at 2. clear IH.
  induction (seq 0 (length l)) as [|i s IHs]; [reflexivity|].
  rewrite fmap_cons. cbn [omap list_omap]. cbn [lookup list_lookup].
  now rewrite IHs.
Qed.

(** The rows at a shuffled [range(len(l))] are the rows of [l], shuffled. *)
Lemma rows_perm (l : list A) (indices : list nat) (r : list A) :
  Forall2 (fun i a => l !! i = Some a) indices r ->
  indices ≡ₚ seq 0 (length l) ->
  r ≡ₚ l.
Proof.
  intros Hrows Hperm. rewrite (rows_omap _ _ _ Hrows), Hperm.
  now rewrite omap_lookup_seq.
Qed.

End IndexFacts.

(** Two arrays indexed with the same indices stay aligned. *)
Lemma rows_zip {A B : Type} (X : list A) (y : list B) (indices : list nat)
    (xr : list A) (yr : list B) :
  Forall2 (fun i a => X !! i = Some a) indices xr ->
  Forall2 (fun i b => y !! i = Some b) indices yr ->
  Forall2 (fun i p => zip X y !! i = Some p) indices (zip xr yr).
Proof.
  intros HX. revert yr.
  induction HX as [|i a rest xr Hi _ IH]; intros yr Hy;
    inversion Hy as [|? b ? yr' Hb Hrest]; subst; simpl; constructor.
  - now apply lookup_zip_Some.
  - now apply IH.
Qed.

(** ** The train/test split *)

Lemma validate_shuffle_split_sum (n : nat) (test_size : float)
    (n_train n_test : Z) :
  validate_shuffle_split n test_size = Ok (n_train, n_test) ->
  (n_test + n_train)%Z = Z.of_nat n.
Proof.
  unfold validate_shuffle_split.
  destruct (_ || _)%bool; [discriminate|].
  destruct (float_ceil _) as [k|e]; simpl; [|discriminate].
  destruct (_ =? 0)%Z; [discriminate|].
  intros [= <- <-]. lia.
Qed.

Section SplitFacts.
Context {A : Type}.
Variable RandomState : Type.
Variable seeded : Z -> RandomState.
Variable permutation : RandomState -> nat -> list nat * RandomState.

(** A split that is returned consists of the rows of [X] and of [y] at two
    index arrays, the same two for both. *)
Lemma train_test_split_inv (X y : list A) (test_size : float)
    (random_state : option Z) (global global' : RandomState)
    (s : Split A) :
  train_test_split RandomState seeded permutation
    X y test_size random_state global = (Ok s, global') ->
  exists ind_train ind_test,
    length X = length y /\
    Forall2 (fun i a => X !! i = Some a) ind_train (X_train s) /\
    Forall2 (fun i a => X !! i = Some a) ind_test (X_test s) /\
    Forall2 (fun i b => y !! i = Some b) ind_train (y_train s) /\
    Forall2 (fun i b => y !! i = Some b) ind_test (y_test s).
Proof.
  unfold train_test_split.
  destruct (Nat.eqb_spec (length X) (length y)) as [Hlen|Hlen]; simpl;
    [|intros [=]].
  destruct (validate_shuffle_split _ _) as [[n_train n_test]|e];
    [|intros [=]].
  destruct (permutation _ _) as [perm rng'].
  set (ind_test := slice None (Some n_test) perm).
  set (ind_train := slice (Some n_test) (Some (n_test + n_train)%Z) perm).
  destruct (index_rows X ind_train) as [Xtr|e] eqn:HXtr; simpl; [|intros [=]].
  destruct (index_rows X ind_test) as [Xte|e] eqn:HXte; simpl; [|intros [=]].
  destruct (index_rows y ind_train) as [ytr|e] eqn:Hytr; simpl; [|intros [=]].
  destruct (index_rows y ind_test) as [yte|e] eqn:Hyte; simpl; [|intros [=]].
  intros [= <- _]. simpl.
  exists ind_train, ind_test.
  rewrite <- !index_rows_Forall2. auto.
Qed.

(** The generator draws a shuffled [range(n)]. *)
Hypothesis permutation_shuffles :
  forall rng n, (permutation rng n).1 ≡ₚ seq 0 n.

(** With an int seed, a split of validated sizes is returned: the test
    subset is indexed by the first entries of the shuffled indices, the
    training subset by the other entries, and the process-wide generator is
    left as it was. *)
Lemma train_test_split_seeded (X y : list A) (test_size : float) (seed : Z)
    (global : RandomState) (n_train n_test : Z) :
  length X = length y ->
  validate_shuffle_split (length X) test_size = Ok (n_train, n_test) ->
  exists s,
    train_test_split RandomState seeded permutation
      X y test_size (Some seed) global = (Ok s, global) /\
    Forall2 (fun i a => X !! i = Some a)
      (drop (clip_index (length X) n_test)
            (permutation (seeded seed) (length X)).1) (X_train s) /\
    Forall2 (fun i a => X !! i = Some a)
      (take (clip_index (length X) n_test)
            (permutation (seeded seed) (length X)).1) (X_test s) /\
    Forall2 (fun i b => y !! i = Some b)
      (drop (clip_index (length X) n_test)
            (permutation (seeded seed) (length X)).1) (y_train s) /\
    Forall2 (fun i b => y !! i = Some b)
      (take (clip_index (length X) n_test)
            (permutation (seeded seed) (length X)).1) (y_test s).
Proof.
  intros Hlen Hval.
  pose proof (validate_shuffle_split_sum _ _ _ _ Hval) as Hsum.
  pose proof (permutation_shuffles (seeded seed) (length X)) as Hperm.
  unfold train_test_split.
  rewrite <- Hlen, Nat.eqb_refl, Hval. cbn [negb check_random_state].
  destruct (permutation (seeded seed) (length X)) as [perm rng'].
  cbn [fst] in Hperm |- *.
  assert (Hplen : length perm = length X)
    by now rewrite Hperm, length_seq.
  assert (Hrange : Forall (fun i => i < length X) perm).
  { rewrite Hperm. apply Forall_seq. lia. }
  rewrite <- Hplen in Hsum.
  destruct (slice_cut perm n_test n_train Hsum) as [-> ->].
  rewrite Hplen.
  set (c := clip_index (length X) n_test).
  destruct (index_rows_total X (drop c perm)) as [Xtr HXtr];
    [now apply Forall_drop|].
  destruct (index_rows_total X (take c perm)) as [Xte HXte];
    [now apply Forall_take|].
  destruct (index_rows_total y (drop c perm)) as [ytr Hytr];
    [rewrite <- Hlen; now apply Forall_drop|].
  destruct (index_rows_total y (take c perm)) as [yte Hyte];
    [rewrite <- Hlen; now apply Forall_take|].
  rewrite HXtr, HXte, Hytr, Hyte. simpl.
  eexists. split; [reflexivity|]. simpl.
  rewrite <- !index_rows_Forall2. auto.
Qed.

(** With an int seed the split does not depend on the process-wide
    generator. *)
Lemma train_test_split_global_indep (X y : list A) (test_size : float)
    (seed : Z) (global global' : RandomState) :
  (train_test_split RandomState seeded permutation
     X y test_size (Some seed) global).1
  = (train_test_split RandomState seeded permutation
       X y test_size (Some seed) global').1.
Proof.
  unfold train_test_split.
  destruct (negb _); [reflexivity|].
  destruct (validate_shuffle_split _ _) as [[n_train n_test]|e];
    [|reflexivity].
  cbn [check_random_state].
  now destruct (permutation _ _).
Qed.

(** C4: the split is a partition of the examples.  The two subsets are the
    examples at two index arrays; every example index is in exactly one of
    them, none occurs twice, and none is foreign; the two subsets together
    are the examples, rearranged; the sizes add up to the number of
    examples; and a second split with the same seed returns the same four
    arrays, whatever the process-wide generator is. *)
Theorem train_test_split_partition (X y : list A) (test_size : float)
    (seed : Z) (global : RandomState) (n_train n_test : Z) :
  length X = length y ->
  validate_shuffle_split (length X) test_size = Ok (n_train, n_test) ->
  exists s ind_train ind_test,
    train_test_split RandomState seeded permutation
      X y test_size (Some seed) global = (Ok s, global) /\
    Forall2 (fun i a => X !! i = Some a) ind_train (X_train s) /\
    Forall2 (fun i a => X !! i = Some a) ind_test (X_test s) /\
    Forall2 (fun i b => y !! i = Some b) ind_train (y_train s) /\
    Forall2 (fun i b => y !! i = Some b) ind_test (y_test s) /\
    (forall i, i < length X ->
       (i ∈ ind_train /\ i ∉ ind_test) \/ (i ∈ ind_test /\ i ∉ ind_train)) /\
    (forall i, i ∈ ind_train ++ ind_test -> i < length X) /\
    NoDup (ind_train ++ ind_test) /\
    zip (X_train s) (y_train s) ++ zip (X_test s) (y_test s) ≡ₚ zip X y /\
    length (X_train s) + length (X_test s) = length X /\
    length (y_train s) + length (y_test s) = length y /\
    (forall global',
       (train_test_split RandomState seeded permutation
          X y test_size (Some seed) global').1 = Ok s).
Proof.
  intros Hlen Hval.
  destruct (train_test_split_seeded X y test_size seed global
              n_train n_test Hlen Hval)
    as (s & Hs & HXtr & HXte & Hytr & Hyte).
  pose proof (permutation_shuffles (seeded seed) (length X)) as Hperm.
  set (perm := (permutation (seeded seed) (length X)).1) in *.
  set (c := clip_index (length X) n_test) in *.
  assert (Hall : drop c perm ++ take c perm ≡ₚ seq 0 (length X)).
  { rewrite <- Hperm, (Permutation_app_comm (drop c perm)).
    now rewrite take_drop. }
  assert (Hnodup : NoDup (drop c perm ++ take c perm)).
  { rewrite Hall. apply NoDup_seq. }
  exists s, (drop c perm), (take c perm).
  do 5 (split; [assumption|]).
  split.
  { intros i Hi.
    assert (Hin : i ∈ drop c perm ++ take c perm).
    { rewrite Hall. apply elem_of_seq. lia. }
    apply NoDup_app in Hnodup as (_ & Hdisj & _).
    apply elem_of_app in Hin as [Hin|Hin]; [left|right]; split;
      try assumption.
    - now apply Hdisj.
    - intros Hin'. now apply (Hdisj i). }
  split.
  { intros i Hin. rewrite Hall in Hin. apply elem_of_seq in Hin. lia. }
  split; [assumption|].
  split.
  { apply (rows_perm (zip X y) (drop c perm ++ take c perm)).
    - apply Forall2_app; now apply rows_zip.
    - rewrite length_zip, <- Hlen, Nat.min_id. exact Hall. }
  split.
  { rewrite <- (Forall2_length _ _ _ HXtr), <- (Forall2_length _ _ _ HXte).
    rewrite <- length_app, Hall. apply length_seq. }
  split.
  { rewrite <- (Forall2_length _ _ _ Hytr), <- (Forall2_length _ _ _ Hyte).
    rewrite <- length_app, Hall, <- Hlen. apply length_seq. }
  intros global'.
  now rewrite (train_test_split_global_indep X y test_size seed
                 global' global), Hs.
Qed.

End SplitFacts.

(** ** Reshaping to a length-1 time axis *)

Section ReshapeFacts.
Context {A : Type}.

Lemma concat_rows_length (X : list (list A)) (d : nat) :
  Forall (fun r => length r = d) X ->
  length (concat X) = length X * d.
Proof.
  induction 1 as [|r X Hr _ IH]; simpl; [reflexivity|].
  rewrite length_app, IH, Hr. reflexivity.
Qed.

(** Cutting the flattened array into rows gives the rows back. *)
Lemma chunks_concat (X : list (list A)) (d : nat) :
  Forall (fun r => length r = d) X ->
  chunks (length X) d (concat X) = X.
Proof.
  induction 1 as [|r X Hr _ IH]; simpl; [reflexivity|].
  rewrite take_app_length' by now symmetry.
  rewrite drop_app_length' by now symmetry.
  now rewrite IH.
Qed.

(** Blocks of one entry. *)
Lemma chunks_one {B : Type} (l : list B) :
  chunks (length l) 1 l = map (fun a => [a]) l.
Proof.
  induction l as [|a l IH]; simpl; [reflexivity|].
  rewrite drop_0. now rewrite IH.
Qed.

(** On a rectangular array the reshape puts every row in a sequence of its
    own, of one time step. *)
Lemma with_time_axis_rows (X : list (list A)) (d : nat) :
  Forall (fun r => length r = d) X ->
  with_time_axis X = Ok (map (fun r => [r]) X).
Proof.
  intros Hrows. unfold with_time_axis.
  destruct Hrows as [|r X Hr HX]; [reflexivity|].
  assert (Hall : Forall (fun r => length r = d) (r :: X)) by now constructor.
  unfold reshape3. cbn [shape2 fst snd]. rewrite Hr.
  destruct (decide _) as [_|Hne].
  - f_equal. rewrite Nat.mul_1_r.
    rewrite (chunks_concat (r :: X) d Hall).
    apply chunks_one.
  - exfalso. apply Hne.
    rewrite (concat_rows_length (r :: X) d Hall). lia.
Qed.

(** Rows taken from an array share the properties of its rows. *)
Lemma rows_Forall (P : A -> Prop) (l : list A) (indices : list nat)
    (r : list A) :
  Forall P l ->
  Forall2 (fun i a => l !! i = Some a) indices r ->
  Forall P r.
Proof.
  intros Hl. induction 1 as [|i a rest r Hi _ IH]; constructor;
    [|assumption].
  rewrite Forall_lookup in Hl. eapply Hl; eassumption.
Qed.

End ReshapeFacts.

(** ** The cells of the pipeline *)

Section PipelineFacts.
Context {A : Type} `{Num A}.
Variable RandomState : Type.
Variable seeded : Z -> RandomState.
Variable permutation : RandomState -> nat -> list nat * RandomState.
Variable recurrent_activation : A -> A.
Variable named_activation : string -> A -> A.
Variable trained : Sequential -> CompileArgs -> FitArgs A -> Weights A.

Lemma dataset_slices (data : list (list A)) :
  dataset data = (take (length data - 1) data, drop 1 data).
Proof. unfold dataset. now rewrite slice_init, slice_tail. Qed.

(** Inputs and labels taken at the same indices are adjacent samples. *)
Lemma aligned_rows_adjacent (data : list (list A)) (indices : list nat)
    (Xr yr : list (list A)) :
  Forall2 (fun i a => (dataset data).1 !! i = Some a) indices Xr ->
  Forall2 (fun i b => (dataset data).2 !! i = Some b) indices yr ->
  forall i a, Xr !! i = Some a ->
    exists k b,
      data !! k = Some a /\ data !! (k + 1) = Some b /\ yr !! i = Some b.
Proof.
  rewrite dataset_slices. cbn [fst snd].
  intros HX Hy i a Hi.
  destruct (Forall2_lookup_r _ _ _ _ _ HX Hi) as (k & Hk & Ha).
  destruct (Forall2_lookup_l _ _ _ _ _ Hy Hk) as (b & Hb & Hyk).
  apply lookup_take_Some in Ha as [Ha _].
  rewrite lookup_drop in Hyk.
  exists k, b. rewrite Nat.add_comm. auto.
Qed.

(** C10: inputs and labels are shuffled together: entry i of [X_train] is
    some trajectory sample k and entry i of [y_train] is sample k + 1, and
    the same holds for [X_test] and [y_test]. *)
Theorem split_keeps_pairs (data : list (list A))
    (global global' : RandomState) (s : Split (list A)) :
  split_cell RandomState seeded permutation data global = (Ok s, global') ->
  (forall i a, X_train s !! i = Some a ->
     exists k b,
       data !! k = Some a /\ data !! (k + 1) = Some b /\
       y_train s !! i = Some b) /\
  (forall i a, X_test s !! i = Some a ->
     exists k b,
       data !! k = Some a /\ data !! (k + 1) = Some b /\
       y_test s !! i = Some b) /\
  length (X_train s) = length (y_train s) /\
  length (X_test s) = length (y_test s).
Proof.
  unfold split_cell. intros Hsplit.
  apply train_test_split_inv in Hsplit
    as (ind_train & ind_test & _ & HXtr & HXte & Hytr & Hyte).
  split; [now apply (aligned_rows_adjacent data ind_train)|].
  split; [now apply (aligned_rows_adjacent data ind_test)|].
  split.
  - now rewrite <- (Forall2_length _ _ _ HXtr), (Forall2_length _ _ _ Hytr).
  - now rewrite <- (Forall2_length _ _ _ HXte), (Forall2_length _ _ _ Hyte).
Qed.

Lemma dense_row_length (w : nat -> nat -> nat -> A) (units : nat)
    (x : list A) :
  length (dense_row w units x) = units.
Proof. unfold dense_row. now rewrite length_map, length_seq. Qed.

Lemma lstm_step_length (w : nat -> nat -> nat -> A) (units : nat)
    (activation : option string) (hc : list A * list A) (x : list A) :
  length (lstm_step recurrent_activation named_activation
            w units activation hc x).1 = units /\
  length (lstm_step recurrent_activation named_activation
            w units activation hc x).2 = units.
Proof.
  destruct hc as [h c]. unfold lstm_step. cbn [fst snd].
  now rewrite !length_map, length_seq.
Qed.

(** The run of the cell on rectangular arrays: six calls to the engine, in
    this order, and the two prediction arrays. *)
Lemma models_cell_run (s : Split (list A)) (d : nat) :
  Forall (fun r => length r = d) (X_train s) ->
  Forall (fun r => length r = d) (X_test s) ->
  let cargs := {| optimizer := "adam"; loss := "mean_absolute_error" |} in
  let fb := {| fit_x := T2 (X_train s); fit_y := y_train s;
               epochs := 50; batch_size := 32;
               validation_split := lit_0_2; verbose := 0 |} in
  let fl := {| fit_x := T3 (map (fun r => [r]) (X_train s));
               fit_y := y_train s;
               epochs := 50; batch_size := 32;
               validation_split := lit_0_2; verbose := 0 |} in
  let wb := trained [Dense 3] cargs fb in
  let wl := trained [LSTM 50 None; Dense 3] cargs fl in
  models_cell recurrent_activation named_activation trained s
  = ([CompileCall [Dense 3] cargs;
      FitCall [Dense 3] fb;
      CompileCall [LSTM 50 None; Dense 3] cargs;
      FitCall [LSTM 50 None; Dense 3] fl;
      PredictCall [Dense 3] (T2 (X_test s));
      PredictCall [LSTM 50 None; Dense 3]
        (T3 (map (fun r => [r]) (X_test s)))],
     Ok {| baseline_predictions :=
             T2 (map (dense_row (wb 0) 3) (X_test s));
           lstm_predictions :=
             T2 (map (fun x =>
                        dense_row (wl 1) 3
                          (lstm_step recurrent_activation named_activation
                             (wl 0) 50 None (initial_hc 50) x).1)
                     (X_test s)) |}).
Proof.
  intros Htrain Htest. unfold models_cell.
  rewrite (with_time_axis_rows _ d Htrain), (with_time_axis_rows _ d Htest).
  cbn -[dense_row lstm_step initial_hc].
  now rewrite !map_map.
Qed.

(** C6: both models are compiled with the optimizer 'adam' and the loss
    'mean_absolute_error', and both are fitted on the training subset (the
    inputs and their labels) for 50 epochs, in batches of 32, with the
    fraction 0.2 of the training subset held out for validation; of the 799
    training examples of the pipeline that is the last 160. *)
Theorem models_training_calls (s : Split (list A)) (d : nat) :
  Forall (fun r => length r = d) (X_train s) ->
  Forall (fun r => length r = d) (X_test s) ->
  compile_calls
    (models_cell recurrent_activation named_activation trained s).1
  = [([Dense 3],
      {| optimizer := "adam"; loss := "mean_absolute_error" |});
     ([LSTM 50 None; Dense 3],
      {| optimizer := "adam"; loss := "mean_absolute_error" |})] /\
  fit_calls
    (models_cell recurrent_activation named_activation trained s).1
  = [([Dense 3],
      {| fit_x := T2 (X_train s); fit_y := y_train s;
         epochs := 50; batch_size := 32;
         validation_split := lit_0_2; verbose := 0 |});
     ([LSTM 50 None; Dense 3],
      {| fit_x := T3 (map (fun r => [r]) (X_train s));
         fit_y := y_train s;
         epochs := 50; batch_size := 32;
         validation_split := lit_0_2; verbose := 0 |})] /\
  lit_0_2 = 0x1.999999999999ap-3%float /\
  validation_holdout 799 lit_0_2 = Ok (639, 160) /\
  steps_per_epoch 639 32 = 20.
Proof.
  intros Htrain Htest.
  rewrite (models_cell_run s d Htrain Htest). cbn [fst].
  split; [reflexivity|].
  split; [reflexivity|].
  split; [vm_compute; reflexivity|].
  split; [vm_compute; reflexivity|].
  reflexivity.
Qed.

(** C7: the recurrent model is fitted and evaluated on inputs reshaped to
    (examples, 1, 3): every example is a sequence of one time step of three
    numbers.  Its LSTM layer has 50 units, so the recurrent state of an
    example has 50 entries, and its Dense layer returns 3 numbers.  The
    prediction for an example is computed from that example alone, starting
    from the zero state: nothing is carried from one example to the next. *)
Theorem lstm_model_single_step (s : Split (list A)) :
  Forall (fun r => length r = 3) (X_train s) ->
  Forall (fun r => length r = 3) (X_test s) ->
  let wl :=
    trained [LSTM 50 None; Dense 3]
      {| optimizer := "adam"; loss := "mean_absolute_error" |}
      {| fit_x := T3 (map (fun r => [r]) (X_train s));
         fit_y := y_train s;
         epochs := 50; batch_size := 32;
         validation_split := lit_0_2; verbose := 0 |} in
  let state_of x :=
    lstm_step recurrent_activation named_activation
      (wl 0) 50 None (initial_hc 50) x in
  exists calls preds fb pb,
    models_cell recurrent_activation named_activation trained s
    = (calls, Ok preds) /\
    lstm_model = [LSTM 50 None; Dense 3] /\
    fit_calls calls
    = [fb;
       (lstm_model,
        {| fit_x := T3 (map (fun r => [r]) (X_train s));
           fit_y := y_train s;
           epochs := 50; batch_size := 32;
           validation_split := lit_0_2; verbose := 0 |})] /\
    predict_calls calls
    = [pb; (lstm_model, T3 (map (fun r => [r]) (X_test s)))] /\
    with_time_axis (X_test s) = Ok (map (fun r => [r]) (X_test s)) /\
    length (map (fun r => [r]) (X_test s)) = length (X_test s) /\
    Forall (fun steps => length steps = 1 /\
                         Forall (fun r => length r = 3) steps)
           (map (fun r => [r]) (X_test s)) /\
    lstm_predictions preds
    = T2 (map (fun x => dense_row (wl 1) 3 (state_of x).1) (X_test s)) /\
    (forall x,
       length (state_of x).1 = 50 /\ length (state_of x).2 = 50 /\
       length (dense_row (wl 1) 3 (state_of x).1) = 3 /\
       lstm_example recurrent_activation named_activation
         (wl 0) 50 None [x] = (state_of x).1).
Proof.
  intros Htrain Htest wl state_of.
  do 4 eexists.
  split; [apply (models_cell_run s 3 Htrain Htest)|].
  split; [reflexivity|].
  split; [reflexivity|].
  split; [reflexivity|].
  split; [apply (with_time_axis_rows _ 3 Htest)|].
  split; [apply length_map|].
  split.
  { apply Forall_map. eapply Forall_impl; [exact Htest|].
    intros r Hr. cbn beta. split; [reflexivity|]. now constructor. }
  split; [reflexivity|].
  intros x. unfold state_of.
  split; [apply lstm_step_length|].
  split; [apply lstm_step_length|].
  split; [apply dense_row_length|reflexivity].
Qed.

Lemma shape_T2 (rows : list (list A)) (n d : nat) :
  length rows = S n -> Forall (fun r => length r = d) rows ->
  shape (T2 rows) = [S n; d].
Proof.
  intros Hlen Hrows. destruct Hrows as [|r rows Hr _]; [discriminate|].
  cbn [shape shape2 snd]. now rewrite Hlen, Hr.
Qed.

(** The generator draws a shuffled [range(n)]. *)
Hypothesis permutation_shuffles :
  forall rng n, (permutation rng n).1 ≡ₚ seq 0 n.

(** C5: a trajectory of 1000 states gives 999 examples; the split returns
    799 training and 200 test examples; the cell of the models makes
    exactly six calls to the engine: each model is compiled, fitted on the
    training subset and then evaluated on the test inputs (reshaped to one
    time step for the recurrent model); and the two prediction arrays are
    what [predict] returns for the fitted baseline model and the fitted
    recurrent model on these inputs, each 200 rows of 3 numbers.  Of the
    799 training examples both fits train on 639 and validate on 160. *)
Theorem pipeline_shapes (data : list (list A)) (global : RandomState) :
  length data = 1000 ->
  Forall (fun r => length r = 3) data ->
  exists s calls preds bp lp,
    length (dataset data).1 = 999 /\
    length (dataset data).2 = 999 /\
    split_cell RandomState seeded permutation data global
    = (Ok s, global) /\
    length (X_train s) = 799 /\ length (y_train s) = 799 /\
    length (X_test s) = 200 /\ length (y_test s) = 200 /\
    models_cell recurrent_activation named_activation trained s
    = (calls, Ok preds) /\
    baseline_predictions preds = T2 bp /\
    lstm_predictions preds = T2 lp /\
    length bp = 200 /\ Forall (fun r => length r = 3) bp /\
    length lp = 200 /\ Forall (fun r => length r = 3) lp /\
    shape (baseline_predictions preds) = [200; 3] /\
    shape (lstm_predictions preds) = [200; 3] /\
    let cargs := {| optimizer := "adam"; loss := "mean_absolute_error" |} in
    let fb := {| fit_x := T2 (X_train s); fit_y := y_train s;
                 epochs := 50; batch_size := 32;
                 validation_split := lit_0_2; verbose := 0 |} in
    let fl := {| fit_x := T3 (map (fun r => [r]) (X_train s));
                 fit_y := y_train s;
                 epochs := 50; batch_size := 32;
                 validation_split := lit_0_2; verbose := 0 |} in
    calls = [CompileCall [Dense 3] cargs;
             FitCall [Dense 3] fb;
             CompileCall [LSTM 50 None; Dense 3] cargs;
             FitCall [LSTM 50 None; Dense 3] fl;
             PredictCall [Dense 3] (T2 (X_test s));
             PredictCall [LSTM 50 None; Dense 3]
               (T3 (map (fun r => [r]) (X_test s)))] /\
    predict recurrent_activation named_activation
      [Dense 3] (trained [Dense 3] cargs fb) (T2 (X_test s))
    = Ok (baseline_predictions preds) /\
    predict recurrent_activation named_activation
      [LSTM 50 None; Dense 3] (trained [LSTM 50 None; Dense 3] cargs fl)
      (T3 (map (fun r => [r]) (X_test s)))
    = Ok (lstm_predictions preds) /\
    validation_holdout (length (X_train s)) lit_0_2 = Ok (639, 160).
Proof.
  intros HN Hrows.
  assert (HX : length (dataset data).1 = 999).
  { rewrite dataset_slices. cbn [fst]. rewrite length_take. lia. }
  assert (Hy : length (dataset data).2 = 999).
  { rewrite dataset_slices. cbn [snd]. rewrite length_drop. lia. }
  assert (HrowsX : Forall (fun r => length r = 3) (dataset data).1).
  { rewrite dataset_slices. now apply Forall_take. }
  assert (Hval : validate_shuffle_split (length (dataset data).1) lit_0_2
                 = Ok (799%Z, 200%Z)).
  { rewrite HX. vm_compute. reflexivity. }
  destruct (train_test_split_seeded RandomState seeded permutation
              permutation_shuffles
              (dataset data).1 (dataset data).2 lit_0_2 42 global
              799 200 ltac:(congruence) Hval)
    as (s & Hs & HXtr & HXte & Hytr & Hyte).
  pose proof (permutation_shuffles (seeded 42) (length (dataset data).1))
    as Hperm.
  apply Permutation_length in Hperm. rewrite length_seq in Hperm.
  rewrite HX in *.
  change (clip_index 999 200) with 200 in *.
  apply Forall2_length in Hytr, Hyte.
  pose proof (Forall2_length _ _ _ HXtr) as Hltr.
  pose proof (Forall2_length _ _ _ HXte) as Hlte.
  rewrite length_drop, Hperm in Hltr, Hytr.
  rewrite length_take, Hperm in Hlte, Hyte.
  assert (Htr3 : Forall (fun r => length r = 3) (X_train s))
    by exact (rows_Forall _ _ _ _ HrowsX HXtr).
  assert (Hte3 : Forall (fun r => length r = 3) (X_test s))
    by exact (rows_Forall _ _ _ _ HrowsX HXte).
  exists s. do 4 eexists.
  split; [reflexivity|].
  split; [exact Hy|].
  split; [exact Hs|].
  split; [simpl in Hltr; lia|].
  split; [simpl in Hytr; lia|].
  split; [simpl in Hlte; lia|].
  split; [simpl in Hyte; lia|].
  split; [apply (models_cell_run s 3 Htr3 Hte3)|].
  split; [reflexivity|].
  split; [reflexivity|].
  assert (Hte200 : length (X_test s) = 200) by (simpl in Hlte; lia).
  split; [now rewrite length_map|].
  split; [apply Forall_map, Forall_forall; intros; apply dense_row_length|].
  split; [now rewrite length_map|].
  split; [apply Forall_map, Forall_forall; intros; apply dense_row_length|].
  split; [apply shape_T2; [now rewrite length_map|];
          apply Forall_map, Forall_forall; intros; apply dense_row_length|].
  split; [apply shape_T2; [now rewrite length_map|];
          apply Forall_map, Forall_forall; intros; apply dense_row_length|].
  cbv zeta.
  split; [reflexivity|].
  split; [reflexivity|].
  split; [cbn -[dense_row lstm_step initial_hc]; now rewrite !map_map|].
  replace (length (X_train s)) with 799 by (simpl in Hltr; lia).
  vm_compute. reflexivity.
Qed.

End PipelineFacts.

(** ** The properties at sample inputs *)

Lemma reversing_permutation_shuffles (rng n : nat) :
  (reversing_permutation rng n).1 ≡ₚ seq 0 n.
Proof. symmetry. apply Permutation_rev. Qed.

Lemma ramp_rows (n : nat) : Forall (fun r => length r = 3) (ramp n).
Proof. apply Forall_map, Forall_forall. reflexivity. Qed.

Lemma train_test_split_partition_witness :
  exists s,
    train_test_split nat counter_seeded reversing_permutation
      (dataset (ramp 7)).1 (dataset (ramp 7)).2 lit_0_2 (Some 42%Z) 0
    = (Ok s, 0) /\
    length (X_train s) + length (X_test s) = 6 /\
    zip (X_train s) (y_train s) ++ zip (X_test s) (y_test s)
      ≡ₚ zip (dataset (ramp 7)).1 (dataset (ramp 7)).2.
Proof.
  destruct (train_test_split_partition nat counter_seeded
              reversing_permutation reversing_permutation_shuffles
              (dataset (ramp 7)).1 (dataset (ramp 7)).2 lit_0_2 42%Z 0
              4%Z 2%Z)
    as (s & ind_train & ind_test & Hs & _ & _ & _ & _ & _ & _ & _
        & Hzip & Hlen & _).
  - reflexivity.
  - vm_compute. reflexivity.
  - exists s. split; [exact Hs|]. split; [exact Hlen|exact Hzip].
Defined.

Lemma split_keeps_pairs_witness :
  exists s,
    split_cell nat counter_seeded reversing_permutation (ramp 7) 0
    = (Ok s, 0) /\
    forall i a, X_train s !! i = Some a ->
      exists k b,
        ramp 7 !! k = Some a /\ ramp 7 !! (k + 1) = Some b /\
        y_train s !! i = Some b.
Proof.
  eexists. split.
  - vm_compute. reflexivity.
  - eapply (split_keeps_pairs nat counter_seeded reversing_permutation
              (ramp 7) 0 0).
    vm_compute. reflexivity.
Defined.

Lemma pipeline_shapes_witness :
  length (ramp 1000) = 1000 /\
  Forall (fun r => length r = 3) (ramp 1000) /\
  exists s preds bp lp,
    split_cell nat counter_seeded reversing_permutation (ramp 1000) 0
    = (Ok s, 0) /\
    length (X_train s) = 799 /\ length (X_test s) = 200 /\
    (models_cell linear linear_named unit_weights s).2 = Ok preds /\
    baseline_predictions preds = T2 bp /\ length bp = 200 /\
    lstm_predictions preds = T2 lp /\ length lp = 200.
Proof.
  assert (Hlen : length (ramp 1000) = 1000)
    by (unfold ramp; now rewrite length_map, length_seq).
  split; [exact Hlen|].
  split; [apply ramp_rows|].
  destruct (pipeline_shapes nat counter_seeded reversing_permutation
              linear linear_named unit_weights
              reversing_permutation_shuffles (ramp 1000) 0
              Hlen (ramp_rows 1000))
    as (s & calls & preds & bp & lp & _ & _ & Hs & Htr & _ & Hte & _
        & Hrun & Hb & Hl & Hbl & _ & Hll & _ & _ & _).
  exists s, preds, bp, lp.
  rewrite Hrun. auto 10.
Defined.

Lemma models_training_calls_witness :
  Forall (fun r => length r = 3) (X_train small_split) /\
  Forall (fun r => length r = 3) (X_test small_split) /\
  map (fun c => (epochs c.2, batch_size c.2))
      (fit_calls (models_cell linear linear_named unit_weights
                    small_split).1)
  = [(50, 32); (50, 32)].
Proof.
  assert (Htr : Forall (fun r => length r = 3) (X_train small_split))
    by (repeat constructor).
  assert (Hte : Forall (fun r => length r = 3) (X_test small_split))
    by (repeat constructor).
  destruct (models_training_calls linear linear_named unit_weights
              small_split 3 Htr Hte) as (_ & Hfit & _).
  split; [exact Htr|]. split; [exact Hte|].
  rewrite Hfit. reflexivity.
Defined.

Lemma lstm_model_single_step_witness :
  Forall (fun r => length r = 3) (X_train small_split) /\
  Forall (fun r => length r = 3) (X_test small_split) /\
  exists calls preds lp,
    models_cell linear linear_named unit_weights small_split
    = (calls, Ok preds) /\
    lstm_predictions preds = T2 lp /\ length lp = 1.
Proof.
  assert (Htr : Forall (fun r => length r = 3) (X_train small_split))
    by (repeat constructor).
  assert (Hte : Forall (fun r => length r = 3) (X_test small_split))
    by (repeat constructor).
  destruct (lstm_model_single_step linear linear_named unit_weights
              small_split Htr Hte)
    as (calls & preds & fb & pb & Hrun & _ & _ & _ & _ & _ & _ & Hlp & _).
  split; [exact Htr|]. split; [exact Hte|].
  exists calls, preds. eexists.
  split; [exact Hrun|]. split; [exact Hlp|]. reflexivity.
Defined.

(* ===================================================================== *)
(** * Further properties of the cells *)
(* ===================================================================== *)

Import Cells Plots.

(** ** The vector field in exact arithmetic *)

Ltac field_at_Q :=
  cbn [lorenz lorenz_system sigma beta rho ml_globals attractor_globals
       nadd nsub nmul ndiv of_int of_lit Num_Q].

Section FieldErrors.
Context {A : Type} `{Num A}.

(** The field is returned exactly for the states of three entries; any
    other state makes the unpacking raise ValueError, in both versions of
    the function. *)
Theorem lorenz_state_arity (g : Globals A) (t : A) (state : list A) :
  (length state = 3 <-> exists out, lorenz g t state = Ok out) /\
  (length state = 3 <->
     exists out,
       lorenz_system t state (sigma g) (beta g) (rho g) = Ok out) /\
  (length state <> 3 <-> lorenz g t state = Raise ValueError) /\
  (length state <> 3 <->
     lorenz_system t state (sigma g) (beta g) (rho g) = Raise ValueError).
Proof.
  destruct state as [|x [|y [|z [|u rest]]]]; cbn [lorenz lorenz_system length];
    repeat split; try discriminate; try (intros [out [=]]); try (intros [=]);
    intros; try (now eexists); try congruence; try reflexivity.
Qed.

End FieldErrors.

(** The field is odd under the reflection (x, y, z) -> (-x, -y, z): the
    first two derivatives change sign and the third is unchanged, whatever
    the parameters. *)
Theorem lorenz_reflection (g : Globals Q) (t x y z : Q) :
  exists dx dy dz dx' dy' dz',
    lorenz g t [x; y; z] = Ok [dx; dy; dz] /\
    lorenz g t [(- x)%Q; (- y)%Q; z] = Ok [dx'; dy'; dz'] /\
    (dx' == - dx)%Q /\ (dy' == - dy)%Q /\ (dz' == dz)%Q.
Proof.
  do 6 eexists. split; [reflexivity|]. split; [reflexivity|].
  field_at_Q. repeat split; ring.
Qed.

(** The states at which the field vanishes, for sigma other than 0: the
    points with y = x where either x = 0 and beta z = 0, or z = rho - 1 and
    x^2 = beta (rho - 1). *)
Theorem lorenz_equilibria (g : Globals Q) (t x y z : Q) :
  ~ (sigma g == 0)%Q ->
  (exists dx dy dz,
     lorenz g t [x; y; z] = Ok [dx; dy; dz] /\
     (dx == 0)%Q /\ (dy == 0)%Q /\ (dz == 0)%Q)
  <->
  ((y == x)%Q /\
   (((x == 0)%Q /\ (beta g * z == 0)%Q) \/
    ((z == rho g - 1)%Q /\ (x * x == beta g * (rho g - 1))%Q))).
Proof.
  intros Hsigma. split.
  - intros (dx & dy & dz & Hrun & Hdx & Hdy & Hdz).
    injection Hrun as <- <- <-. revert Hdx Hdy Hdz. field_at_Q.
    intros Hdx Hdy Hdz.
    assert (Hyx : (y == x)%Q).
    { apply Qmult_integral in Hdx as [Hdx|Hdx]; [contradiction|lra]. }
    split; [exact Hyx|].
    assert (Hprod : (x * (rho g - 1 - z) == 0)%Q) by nra.
    apply Qmult_integral in Hprod as [Hx|Hz]; [left|right].
    + split; [exact Hx|]. nra.
    + split; [lra|]. nra.
  - intros (Hyx & Hcases).
    do 3 eexists. split; [reflexivity|]. field_at_Q.
    destruct Hcases as [[Hx Hbz]|[Hz Hxx]]; repeat split; nra.
Qed.

(** The exact change of the field between two states, as between the two
    initial conditions of the second cell: with offsets (ex, ey, ez) the
    derivatives change by sigma (ey - ex), by
    ex (rho - z) - x ez - ex ez - ey and by
    ex y + x ey + ex ey - beta ez.  For an offset in z alone that is
    0, -x ez and -beta ez. *)
Theorem lorenz_system_offset (t x y z ex ey ez sigma beta rho : Q) :
  exists dx dy dz dx' dy' dz',
    lorenz_system t [x; y; z] sigma beta rho = Ok [dx; dy; dz] /\
    lorenz_system t [(x + ex)%Q; (y + ey)%Q; (z + ez)%Q] sigma beta rho
    = Ok [dx'; dy'; dz'] /\
    (dx' - dx == sigma * (ey - ex))%Q /\
    (dy' - dy == ex * (rho - z) - x * ez - ex * ez - ey)%Q /\
    (dz' - dz == ex * y + x * ey + ex * ey - beta * ez)%Q /\
    ((ex == 0)%Q -> (ey == 0)%Q ->
     (dx' - dx == 0)%Q /\ (dy' - dy == - (x * ez))%Q /\
     (dz' - dz == - (beta * ez))%Q).
Proof.
  do 6 eexists. split; [reflexivity|]. split; [reflexivity|].
  field_at_Q. split; [ring|]. split; [ring|]. split; [ring|].
  intros Hex Hey. repeat split; nra.
Qed.

Lemma lorenz_equilibria_witness :
  ~ (sigma (ml_globals (A:=Q)) == 0)%Q /\
  exists dx dy dz,
    lorenz (A:=Q) ml_globals 0%Q [0%Q; 0%Q; 0%Q] = Ok [dx; dy; dz] /\
    (dx == 0)%Q /\ (dy == 0)%Q /\ (dz == 0)%Q.
Proof.
  assert (Hsigma : ~ (sigma (ml_globals (A:=Q)) == 0)%Q)
    by (intros Heq; vm_compute in Heq; discriminate Heq).
  split; [exact Hsigma|].
  apply (lorenz_equilibria ml_globals 0%Q 0%Q 0%Q 0%Q Hsigma).
  split; [reflexivity|]. left. split; reflexivity.
Defined.

(** ** The set-up of the first two cells *)

#[local] Set Warnings "-abstract-large-number".

(** The first two cells ask for 10000 evaluation times each, from 0 to 100
    and from 0 to 40, and the two initial conditions of the second cell
    differ in z alone, by 1/10000. *)
Lemma first_cells_setup :
  length (attractor_t_eval (A:=float)) = 10000 /\
  last (attractor_t_eval (A:=float)) = Some (of_lit 100) /\
  length (nearby_t_eval (A:=float)) = 10000 /\
  last (nearby_t_eval (A:=float)) = Some (of_lit 40) /\
  attractor_initial_state (A:=Q) = initial_condition_A /\
  exists x y z z',
    initial_condition_A (A:=Q) = [x; y; z] /\
    initial_condition_B (A:=Q) = [x; y; z'] /\
    (z' - z == 1 # 10000)%Q.
Proof.
  split; [apply linspace_length|].
  split; [unfold attractor_t_eval, attractor_t_span, linspace;
          cbn [Nat.of_num_uint]; apply last_snoc|].
  split; [apply linspace_length|].
  split; [unfold nearby_t_eval, nearby_t_span, linspace;
          cbn [Nat.of_num_uint]; apply last_snoc|].
  split; [reflexivity|].
  do 4 eexists. split; [reflexivity|]. split; reflexivity.
Qed.

(** ** The trajectory array and the examples *)

Section TrajectoryFacts.
Context {A : Type}.

Lemma lookup_omap_all {B C : Type} (f : C -> option B) (l : list C)
    (i : nat) :
  Forall (fun a => is_Some (f a)) l ->
  omap f l !! i = l !! i ≫= f.
Proof.
  intros Hall. revert i.
  induction Hall as [|a l [b Hb] _ IH]; intros i; [reflexivity|].
  cbn [omap list_omap]. rewrite Hb.
  destruct i as [|i]; simpl; [now rewrite Hb|apply IH].
Qed.

Lemma column_data_of (xs ys zs : list A) (j : nat) (row : list A) :
  length ys = length xs -> length zs = length xs ->
  [xs; ys; zs] !! j = Some row ->
  column j (data_of [xs; ys; zs]) = row.
Proof.
  intros Hys Hzs Hj.
  destruct (data_of_rows xs ys zs Hys Hzs) as (Hlen & Hthree & Hrows).
  assert (Hj3 : j < 3) by (apply lookup_lt_Some in Hj; exact Hj).
  assert (Hrow : length row = length xs).
  { destruct j as [|[|[|j]]]; simpl in Hj; try discriminate;
      injection Hj as <-; congruence. }
  apply list_eq. intros i. unfold column.
  rewrite lookup_omap_all.
  2:{ eapply Forall_impl; [exact Hthree|].
      intros r Hr. apply lookup_lt_is_Some. now rewrite Hr. }
  destruct (decide (i < length xs)) as [Hi|Hi].
  - destruct (lookup_lt_is_Some_2 xs i) as [x Hx]; [lia|].
    destruct (lookup_lt_is_Some_2 ys i) as [y Hy]; [lia|].
    destruct (lookup_lt_is_Some_2 zs i) as [z Hz]; [lia|].
    rewrite (Hrows i x y z Hx Hy Hz). simpl.
    destruct j as [|[|[|j]]]; simpl in Hj |- *; try lia;
      injection Hj as <-; congruence.
  - rewrite (lookup_ge_None_2 row) by lia.
    rewrite (lookup_ge_None_2 (data_of [xs; ys; zs])) by lia.
    reflexivity.
Qed.

(** Transposing loses nothing: column j of [data] is coordinate row j of
    the solution, for j = 0, 1, 2; and for a solution with at least one
    time, transposing [data] gives the solution back. *)
Theorem data_of_columns (xs ys zs : list A) :
  length ys = length xs -> length zs = length xs ->
  column 0 (data_of [xs; ys; zs]) = xs /\
  column 1 (data_of [xs; ys; zs]) = ys /\
  column 2 (data_of [xs; ys; zs]) = zs /\
  (0 < length xs -> transpose (data_of [xs; ys; zs]) = [xs; ys; zs]).
Proof.
  intros Hys Hzs.
  pose proof (column_data_of xs ys zs 0 xs Hys Hzs eq_refl) as H0.
  pose proof (column_data_of xs ys zs 1 ys Hys Hzs eq_refl) as H1.
  pose proof (column_data_of xs ys zs 2 zs Hys Hzs eq_refl) as H2.
  do 3 (split; [assumption|]).
  intros Hpos. unfold transpose at 1.
  destruct (data_of_rows xs ys zs Hys Hzs) as (Hlen & Hthree & _).
  destruct (data_of [xs; ys; zs]) as [|r rest] eqn:Hdata;
    [simpl in Hlen; lia|].
  cbn [shape2 snd].
  apply Forall_cons in Hthree as [Hr _]. rewrite Hr.
  cbn [seq map]. now rewrite H0, H1, H2.
Qed.

(** No sample is lost by the two slices: the trajectory is its first
    sample followed by the labels, and it is the inputs followed by its
    last sample. *)
Theorem dataset_covers (data : list (list A)) :
  1 <= length data ->
  exists first final,
    head data = Some first /\ last data = Some final /\
    data = first :: (dataset data).2 /\
    data = (dataset data).1 ++ [final].
Proof.
  intros HN. rewrite dataset_slices. cbn [fst snd].
  destruct data as [|first rest]; [simpl in HN; lia|].
  destruct (last (first :: rest)) as [final|] eqn:Hlast.
  - exists first, final. split; [reflexivity|]. split; [reflexivity|].
    split; [reflexivity|].
    apply last_Some in Hlast as [l' Hl']. rewrite Hl'.
    rewrite length_app. cbn [length].
    replace (length l' + 1 - 1) with (length l') by lia.
    now rewrite take_app_length.
  - apply last_None in Hlast. discriminate.
Qed.

End TrajectoryFacts.

Lemma data_of_columns_witness :
  column 1 (data_of [[1%Z; 2%Z]; [3%Z; 4%Z]; [5%Z; 6%Z]]) = [3%Z; 4%Z] /\
  data_of [[1%Z; 2%Z]; [3%Z; 4%Z]; [5%Z; 6%Z]]
  = [[1%Z; 3%Z; 5%Z]; [2%Z; 4%Z; 6%Z]].
Proof.
  destruct (data_of_columns [1%Z; 2%Z] [3%Z; 4%Z] [5%Z; 6%Z]
              eq_refl eq_refl) as (_ & H1 & _).
  split; [exact H1|reflexivity].
Defined.

Lemma dataset_covers_witness :
  exists first final,
    [[1%Z]; [2%Z]; [3%Z]] = first :: (dataset [[1%Z]; [2%Z]; [3%Z]]).2 /\
    [[1%Z]; [2%Z]; [3%Z]] = (dataset [[1%Z]; [2%Z]; [3%Z]]).1 ++ [final].
Proof.
  destruct (dataset_covers [[1%Z]; [2%Z]; [3%Z]]) as
    (first & final & _ & _ & Hfirst & Hfinal); [simpl; lia|].
  exists first, final. split; assumption.
Defined.

(** ** Reshaping keeps the entries *)

Lemma chunks_length {B : Type} (n k : nat) (l : list B) :
  length (chunks n k l) = n.
Proof.
  revert l. induction n as [|n IH]; intros l; simpl; [reflexivity|].
  now rewrite IH.
Qed.

Lemma chunks_rows {B : Type} (n k : nat) (l : list B) :
  n * k <= length l -> Forall (fun c => length c = k) (chunks n k l).
Proof.
  revert l. induction n as [|n IH]; intros l Hlen; simpl; constructor.
  - rewrite length_take. lia.
  - apply IH. rewrite length_drop. lia.
Qed.

Lemma concat_chunks {B : Type} (n k : nat) (l : list B) :
  length l = n * k -> concat (chunks n k l) = l.
Proof.
  revert l. induction n as [|n IH]; intros l Hlen; simpl.
  - destruct l; [reflexivity|discriminate].
  - rewrite IH by (rewrite length_drop; lia).
    apply take_drop.
Qed.

Section ReshapeRoundTrip.
Context {A : Type}.

(** Whenever the reshape to a length-1 time axis returns, the result has
    one sequence per row of the input, every sequence has exactly one time
    step, every step has the width of the input, and flattening the result
    gives the entries of the input back, in the same order. *)
Theorem with_time_axis_keeps_entries (X : list (list A))
    (Y : list (list (list A))) :
  with_time_axis X = Ok Y ->
  length Y = length X /\
  Forall (fun steps =>
            length steps = 1 /\
            Forall (fun r => length r = (shape2 X).2) steps) Y /\
  concat (concat Y) = concat X.
Proof.
  unfold with_time_axis, reshape3. cbn [shape2 fst snd].
  set (c := match X with r :: _ => length r | [] => 0 end).
  destruct (decide _) as [Hsize|_]; [|discriminate].
  intros [= <-].
  set (Z := chunks (length X * 1) c (concat X)).
  assert (HZlen : length Z = length X * 1) by apply chunks_length.
  assert (HZrows : Forall (fun r => length r = c) Z).
  { apply chunks_rows. rewrite Hsize. lia. }
  assert (Hback : concat (chunks (length X) 1 Z) = Z)
    by (apply concat_chunks; exact HZlen).
  split; [apply chunks_length|].
  split.
  - apply Forall_forall. intros steps Hin. split.
    + pose proof (chunks_rows (length X) 1 Z ltac:(lia)) as Hone.
      rewrite Forall_forall in Hone. now apply Hone.
    + apply Forall_forall. intros r Hr.
      rewrite Forall_forall in HZrows. apply HZrows.
      rewrite <- Hback. apply list_elem_of_In, in_concat.
      exists steps. split; now apply list_elem_of_In.
  - rewrite Hback. apply concat_chunks.
    rewrite Hsize. lia.
Qed.

End ReshapeRoundTrip.

Lemma with_time_axis_keeps_entries_witness :
  with_time_axis [[1%Z; 2%Z; 3%Z]; [4%Z; 5%Z; 6%Z]]
  = Ok [[[1%Z; 2%Z; 3%Z]]; [[4%Z; 5%Z; 6%Z]]] /\
  concat (concat [[[1%Z; 2%Z; 3%Z]]; [[4%Z; 5%Z; 6%Z]]])
  = concat [[1%Z; 2%Z; 3%Z]; [4%Z; 5%Z; 6%Z]].
Proof.
  split; [reflexivity|].
  apply (with_time_axis_keeps_entries
           [[1%Z; 2%Z; 3%Z]; [4%Z; 5%Z; 6%Z]]
           [[[1%Z; 2%Z; 3%Z]]; [[4%Z; 5%Z; 6%Z]]]).
  reflexivity.
Defined.

(** ** The split on short and on long trajectories *)

(** For every number of examples from 2 to 4000, a fifth of them, rounded
    up, is held out, and the others are trained on. *)
Lemma split_sizes_checked :
  forallb
    (fun n =>
       match validate_shuffle_split n lit_0_2 with
       | Ok (n_train, n_test) =>
           ((n_test =? (Z.of_nat n + 4) / 5)
            && (n_train =? Z.of_nat n - n_test))%Z
       | Raise _ => false
       end)
    (seq 2 3999) = true.
Proof. vm_compute. reflexivity. Qed.

Lemma split_sizes_fifth (n : nat) :
  2 <= n <= 4000 ->
  validate_shuffle_split n lit_0_2
  = Ok ((Z.of_nat n - (Z.of_nat n + 4) / 5)%Z, ((Z.of_nat n + 4) / 5)%Z).
Proof.
  intros Hn.
  pose proof split_sizes_checked as Hall.
  rewrite forallb_forall in Hall.
  specialize (Hall n ltac:(apply in_seq; lia)).
  destruct (validate_shuffle_split n lit_0_2) as [[n_train n_test]|e];
    [|discriminate].
  apply andb_prop in Hall as [Htest Htrain].
  apply Z.eqb_eq in Htest, Htrain. now subst.
Qed.

Section SplitRange.
Context {A : Type}.
Variable RandomState : Type.
Variable seeded : Z -> RandomState.
Variable permutation : RandomState -> nat -> list nat * RandomState.

(** A trajectory of fewer than three states cannot be split: the split
    raises ValueError, since no training example would be left, and the
    process-wide generator is untouched. *)
Theorem short_trajectory_rejected (data : list (list A))
    (global : RandomState) :
  length data <= 2 ->
  split_cell RandomState seeded permutation data global
  = (Raise ValueError, global).
Proof.
  intros HN.
  destruct data as [|a [|b [|c rest]]]; [| | |simpl in HN; lia];
    vm_compute; reflexivity.
Qed.

(** The generator draws a shuffled [range(n)]. *)
Hypothesis permutation_shuffles :
  forall rng n, (permutation rng n).1 ≡ₚ seq 0 n.

(** The split of a trajectory of 3 to 4001 states, with the two index
    arrays it is made from. *)
Lemma split_cell_indices (data : list (list A)) (global : RandomState) :
  3 <= length data <= 4001 ->
  exists s ind_train ind_test,
    split_cell RandomState seeded permutation data global = (Ok s, global) /\
    Forall2 (fun i a => (dataset data).1 !! i = Some a)
            ind_train (X_train s) /\
    Forall2 (fun i a => (dataset data).1 !! i = Some a)
            ind_test (X_test s) /\
    Forall2 (fun i b => (dataset data).2 !! i = Some b)
            ind_train (y_train s) /\
    Forall2 (fun i b => (dataset data).2 !! i = Some b)
            ind_test (y_test s) /\
    length ind_test = (length data + 3) / 5 /\
    length ind_train = length data - 1 - (length data + 3) / 5 /\
    0 < (length data + 3) / 5 < length data - 1.
Proof.
  intros HN. unfold split_cell.
  assert (HX : length (dataset data).1 = length data - 1).
  { rewrite dataset_slices. cbn [fst]. rewrite length_take. lia. }
  assert (Hy : length (dataset data).2 = length data - 1).
  { rewrite dataset_slices. cbn [snd]. rewrite length_drop. lia. }
  set (n := length data - 1) in *.
  assert (Hval := split_sizes_fifth n ltac:(lia)).
  rewrite <- HX in Hval at 1.
  destruct (train_test_split_seeded RandomState seeded permutation
              permutation_shuffles
              (dataset data).1 (dataset data).2 lit_0_2 42 global
              _ _ ltac:(congruence) Hval)
    as (s & Hs & HXtr & HXte & Hytr & Hyte).
  pose proof (permutation_shuffles (seeded 42) (length (dataset data).1))
    as Hperm.
  apply Permutation_length in Hperm. rewrite length_seq in Hperm.
  set (perm := (permutation (seeded 42) (length (dataset data).1)).1) in *.
  rewrite HX in Hperm, HXtr, HXte, Hytr, Hyte.
  assert (Hfifth : ((Z.of_nat n + 4) / 5)%Z = Z.of_nat ((n + 4) / 5)).
  { rewrite Nat2Z.inj_div, Nat2Z.inj_add. reflexivity. }
  rewrite Hfifth, clip_index_nat in HXtr, HXte, Hytr, Hyte.
  assert (Hpos : 0 < (n + 4) / 5).
  { apply Nat.div_str_pos. lia. }
  assert (Hlt : (n + 4) / 5 < n).
  { apply Nat.Div0.div_lt_upper_bound. lia. }
  rewrite (Nat.min_r n ((n + 4) / 5)) in HXtr, HXte, Hytr, Hyte by lia.
  replace ((length data + 3) / 5) with ((n + 4) / 5)
    by (f_equal; lia).
  exists s, (drop ((n + 4) / 5) perm), (take ((n + 4) / 5) perm).
  split; [exact Hs|].
  do 4 (split; [assumption|]).
  rewrite length_take, length_drop, Hperm. lia.
Qed.

(** A trajectory of 3 to 4001 states is split: of its N - 1 examples a
    fifth, rounded up, are test examples and the others are training
    examples; neither subset is empty. *)
Theorem split_cell_returns (data : list (list A)) (global : RandomState) :
  3 <= length data <= 4001 ->
  exists s,
    split_cell RandomState seeded permutation data global = (Ok s, global) /\
    length (X_test s) = (length data + 3) / 5 /\
    length (y_test s) = (length data + 3) / 5 /\
    length (X_train s) = length data - 1 - (length data + 3) / 5 /\
    length (y_train s) = length data - 1 - (length data + 3) / 5 /\
    0 < length (X_test s) /\ 0 < length (X_train s).
Proof.
  intros HN.
  destruct (split_cell_indices data global HN)
    as (s & ind_train & ind_test & Hs & HXtr & HXte & Hytr & Hyte
        & Hte & Htr & Hbounds).
  apply Forall2_length in HXtr, HXte, Hytr, Hyte.
  exists s. split; [exact Hs|].
  repeat split; lia.
Qed.

End SplitRange.

Lemma short_trajectory_rejected_witness :
  length (ramp 2) <= 2 /\
  split_cell nat counter_seeded reversing_permutation (ramp 2) 7
  = (Raise ValueError, 7).
Proof.
  split; [simpl; lia|].
  apply (short_trajectory_rejected nat counter_seeded reversing_permutation
           (ramp 2) 7).
  simpl. lia.
Defined.

Lemma split_cell_returns_witness :
  3 <= length (ramp 12) <= 4001 /\
  exists s,
    split_cell nat counter_seeded reversing_permutation (ramp 12) 0
    = (Ok s, 0) /\
    length (X_test s) = 3 /\ length (X_train s) = 8.
Proof.
  assert (Hlen : 3 <= length (ramp 12) <= 4001) by (simpl; lia).
  split; [exact Hlen|].
  destruct (split_cell_returns nat counter_seeded reversing_permutation
              reversing_permutation_shuffles (ramp 12) 0 Hlen)
    as (s & Hs & Hte & _ & Htr & _).
  exists s. split; [exact Hs|]. split; [exact Hte|exact Htr].
Defined.

(** ** The plotting cell *)

Section PlotFacts.
Context {A : Type}.

(** [a[:, j]] returns exactly when every row has a column [j]; it then has
    one value per row, the entry [j] of that row. *)
Lemma take_column_Forall2 (a : list (list A)) (j : nat) (c : list A) :
  take_column a j = Ok c <-> Forall2 (fun r v => r !! j = Some v) a c.
Proof.
  revert c. induction a as [|r rest IH]; intros c; simpl.
  - split.
    + intros [= <-]. constructor.
    + intros Hf. inversion Hf. reflexivity.
  - destruct (r !! j) as [v|] eqn:Hv.
    + destruct (take_column rest j) as [c'|e] eqn:Hrest; simpl.
      * split.
        -- intros [= <-]. constructor; [assumption|]. now apply IH.
        -- intros Hf. inversion Hf as [|? v' ? c'' Hv' Hrest']; subst.
           apply IH in Hrest'. congruence.
      * split; [discriminate|].
        intros Hf. inversion Hf as [|? v' ? c'' Hv' Hrest']; subst.
        apply IH in Hrest'. discriminate.
    + split; [discriminate|].
      intros Hf. inversion Hf; congruence.
Qed.

Lemma take_column_rows (a : list (list A)) (j d : nat) :
  Forall (fun r => length r = d) a -> j < d ->
  exists c, take_column a j = Ok c /\ length c = length a.
Proof.
  intros Hrows Hj.
  assert (Hex : exists c, Forall2 (fun r v => r !! j = Some v) a c).
  { induction Hrows as [|r rest Hr _ [c Hc]]; [exists []; constructor|].
    destruct (lookup_lt_is_Some_2 r j) as [v Hv]; [lia|].
    exists (v :: c). now constructor. }
  destruct Hex as [c Hc]. exists c. split.
  - now apply take_column_Forall2.
  - symmetry. exact (Forall2_length _ _ _ Hc).
Qed.

Lemma panel_run (pos : nat) (actual predicted : list (list A)) (j : nat)
    (la lp lt : string) (n : nat) :
  Forall (fun r => length r = 3) actual ->
  Forall (fun r => length r = 3) predicted ->
  length actual = n -> length predicted = n -> j < 3 ->
  exists a p,
    panel pos actual predicted j la lp lt
    = Ok {| position := pos;
            lines := [ {| label := la; points := a |};
                       {| label := lp; points := p |} ];
            title := lt; xlabel := "Time Step"; ylabel := "Value" |} /\
    take_column actual j = Ok a /\ take_column predicted j = Ok p /\
    length a = n /\ length p = n.
Proof.
  intros Ha Hp Hna Hnp Hj.
  destruct (take_column_rows actual j 3 Ha Hj) as (a & Hca & Hla).
  destruct (take_column_rows predicted j 3 Hp Hj) as (p & Hcp & Hlp).
  exists a, p. unfold panel. rewrite Hca, Hcp. simpl.
  repeat split; congruence.
Qed.

(** The six panels of the plotting cell, in the order they are drawn: the
    place on the grid, the coordinate and the predictions of each. *)
Lemma plot_cell_panels (y_test bp lp : list (list A)) (n : nat) :
  Forall (fun r => length r = 3) y_test ->
  Forall (fun r => length r = 3) bp ->
  Forall (fun r => length r = 3) lp ->
  length y_test = n -> length bp = n -> length lp = n ->
  exists panels,
    plot_cell y_test bp lp = Ok panels /\
    Forall2
      (fun p '(pos, j, predicted) =>
         position p = pos /\
         exists a q,
           lines p = [a; q] /\
           length (points a) = n /\ length (points q) = n /\
           take_column y_test j = Ok (points a) /\
           take_column predicted j = Ok (points q))
      panels
      [(1, 0, bp); (3, 1, bp); (2, 0, lp); (4, 1, lp); (5, 2, bp);
       (6, 2, lp)].
Proof.
  intros Hy Hb Hl Hny Hnb Hnl.
  destruct (panel_run 1 y_test bp 0 "Actual X" "Predicted X"
              "Baseline Model (Dense Layers) - X" n Hy Hb Hny Hnb)
    as (a1 & q1 & Hp1 & Ha1 & Hq1 & Hla1 & Hlq1); [lia|].
  destruct (panel_run 3 y_test bp 1 "Actual Y" "Predicted Y"
              "Baseline Model (Dense Layers) - Y" n Hy Hb Hny Hnb)
    as (a2 & q2 & Hp2 & Ha2 & Hq2 & Hla2 & Hlq2); [lia|].
  destruct (panel_run 2 y_test lp 0 "Actual X" "Predicted X"
              "LSTM Model - X" n Hy Hl Hny Hnl)
    as (a3 & q3 & Hp3 & Ha3 & Hq3 & Hla3 & Hlq3); [lia|].
  destruct (panel_run 4 y_test lp 1 "Actual Y" "Predicted Y"
              "LSTM Model - Y" n Hy Hl Hny Hnl)
    as (a4 & q4 & Hp4 & Ha4 & Hq4 & Hla4 & Hlq4); [lia|].
  destruct (panel_run 5 y_test bp 2 "Actual Z" "Predicted Z"
              "Baseline Model (Dense Layers) - Z" n Hy Hb Hny Hnb)
    as (a5 & q5 & Hp5 & Ha5 & Hq5 & Hla5 & Hlq5); [lia|].
  destruct (panel_run 6 y_test lp 2 "Actual Z" "Predicted Z"
              "LSTM Model - Z" n Hy Hl Hny Hnl)
    as (a6 & q6 & Hp6 & Ha6 & Hq6 & Hla6 & Hlq6); [lia|].
  eexists. unfold plot_cell. rewrite Hp1, Hp2, Hp3, Hp4, Hp5, Hp6. cbn [bind].
  split; [reflexivity|].
  repeat (apply Forall2_cons; split;
          [split; [reflexivity|];
           eexists _, _; cbn [lines points];
           split; [reflexivity|]; auto|]).
  constructor.
Qed.

(** The plotting cell on three arrays of n rows of 3 numbers: it draws six
    panels, one in each place of the 3 by 2 grid; every panel overlays two
    lines of n points each, the actual values of one coordinate and the
    values predicted for the same coordinate; the left column of the grid
    (odd places) shows the baseline model and the right column the
    recurrent model; the rows of the grid show x, y and z. *)
Theorem plot_cell_aligned (y_test bp lp : list (list A)) (n : nat) :
  Forall (fun r => length r = 3) y_test ->
  Forall (fun r => length r = 3) bp ->
  Forall (fun r => length r = 3) lp ->
  length y_test = n -> length bp = n -> length lp = n ->
  exists panels,
    plot_cell y_test bp lp = Ok panels /\
    map position panels ≡ₚ seq 1 6 /\
    Forall
      (fun p =>
         exists a q,
           lines p = [a; q] /\
           length (points a) = n /\ length (points q) = n /\
           take_column y_test ((position p - 1) / 2) = Ok (points a) /\
           take_column (if Nat.odd (position p) then bp else lp)
                       ((position p - 1) / 2) = Ok (points q))
      panels.
Proof.
  intros Hy Hb Hl Hny Hnb Hnl.
  destruct (plot_cell_panels y_test bp lp n Hy Hb Hl Hny Hnb Hnl)
    as (panels & Hrun & Htable).
  exists panels. split; [exact Hrun|].
  assert (Hpos : map position panels = [1; 3; 2; 4; 5; 6]).
  { clear Hrun.
    repeat (apply Forall2_cons_inv_r in Htable
              as (? & ? & Hhead & Htable & ->);
            cbn beta iota in Hhead; destruct Hhead as [Hhead _];
            cbn [map]; rewrite Hhead; clear Hhead).
    apply Forall2_nil_inv_r in Htable as ->. reflexivity. }
  split.
  { rewrite Hpos. cbn [seq]. apply perm_skip, perm_swap. }
  clear Hrun Hpos.
  repeat (apply Forall2_cons_inv_r in Htable
            as (p & ? & Hhead & Htable & ->);
          cbn beta iota in Hhead; destruct Hhead as [Hp Hlines];
          apply Forall_cons; split;
          [rewrite Hp; exact Hlines|]; clear p Hp Hlines).
  apply Forall2_nil_inv_r in Htable as ->. constructor.
Qed.

End PlotFacts.

Lemma plot_cell_aligned_witness :
  exists panels,
    plot_cell (y_test small_split) (X_test small_split)
      (X_test small_split) = Ok panels /\
    map position panels = [1; 3; 2; 4; 5; 6].
Proof.
  destruct (plot_cell_aligned (y_test small_split) (X_test small_split)
              (X_test small_split) 1)
    as (panels & Hrun & _); try (repeat constructor).
  exists panels. split; [exact Hrun|].
  revert Hrun. vm_compute. intros [= <-]. reflexivity.
Defined.

(** ** The recurrent layer on sequences of one step *)

Section FirstStep.

Local Open Scope Q_scope.

Variable recurrent_activation : Q -> Q.
Variable named_activation : string -> Q -> Q.

Lemma sum_list_zero (l : list Q) :
  Forall (fun q => q == 0) l -> sum_list l == 0.
Proof.
  induction 1 as [|q l Hq _ IH]; [reflexivity|].
  cbn [sum_list foldr nadd Num_Q] in *. rewrite Hq, IH. reflexivity.
Qed.

Lemma dot_zero_state (n : nat) (kernel : nat -> nat -> Q) (j : nat) :
  dot (replicate n 0) kernel j == 0.
Proof.
  unfold dot. apply sum_list_zero.
  revert kernel. induction n as [|n IH]; intros kernel; [constructor|].
  cbn [replicate imap]. constructor.
  - cbn [nmul Num_Q]. ring.
  - apply (IH (fun i => kernel (S i))).
Qed.

Lemma dot_ext (x : list Q) (kernel kernel' : nat -> nat -> Q) (j : nat) :
  (forall i, kernel i j == kernel' i j) ->
  dot x kernel j == dot x kernel' j.
Proof.
  unfold dot. revert kernel kernel'.
  induction x as [|xi x IH]; intros kernel kernel' Hk; [reflexivity|].
  cbn [imap sum_list foldr nadd nmul Num_Q].
  rewrite (Hk 0%nat).
  specialize (IH (fun i => kernel (S i)) (fun i => kernel' (S i))
                 (fun i => Hk (S i))).
  unfold sum_list in IH. cbn [nadd nmul Num_Q] in IH.
  unfold compose. rewrite IH. reflexivity.
Qed.

Lemma Forall2_map_seq (F F' : nat -> Q) (n : nat) :
  (forall k, (k < n)%nat -> F k == F' k) ->
  Forall2 Qeq (map F (seq 0 n)) (map F' (seq 0 n)).
Proof.
  intros HF. apply Forall2_fmap, Forall_Forall2_diag, Forall_seq.
  intros k Hk. apply HF. lia.
Qed.

Lemma nth_map_seq (F : nat -> Q) (n k : nat) :
  (k < n)%nat -> nth k (map F (seq 0 n)) 0 = F k.
Proof.
  intros Hk. rewrite nth_lookup, list_lookup_fmap, lookup_seq_lt by lia.
  reflexivity.
Qed.

Lemma nth_zero_state (n k : nat) : nth k (replicate n 0) 0 = 0.
Proof.
  rewrite nth_lookup. destruct (replicate n 0 !! k) as [q|] eqn:Hq;
    [|reflexivity].
  apply lookup_replicate in Hq as [-> _]. reflexivity.
Qed.

Hypothesis recurrent_activation_proper :
  forall a b, a == b -> recurrent_activation a == recurrent_activation b.
Hypothesis named_activation_proper :
  forall name a b, a == b -> named_activation name a == named_activation name b.

Lemma activation_fn_proper (activation : option string) (a b : Q) :
  a == b ->
  activation_fn named_activation activation a
  == activation_fn named_activation activation b.
Proof.
  destruct activation as [name|]; simpl; [|trivial].
  apply named_activation_proper.
Qed.

(** On a sequence of one time step, started from the zero state, the
    output of the LSTM layer does not depend on the recurrent kernel, nor
    on the kernel columns and biases of the forget gate: two sets of
    coefficients that agree on the input, candidate and output blocks of
    the kernel and of the bias give the same [h] and the same [c]. *)
Theorem lstm_first_step_ignores_memory
    (w w' : nat -> nat -> nat -> Q) (units : nat)
    (activation : option string) (x : list Q) :
  (forall i j, (j < units \/ 2 * units <= j)%nat -> w 0%nat i j == w' 0%nat i j) ->
  (forall j, (j < units \/ 2 * units <= j)%nat ->
             w 2%nat 0%nat j == w' 2%nat 0%nat j) ->
  Forall2 Qeq
    (lstm_step recurrent_activation named_activation
       w units activation (initial_hc units) x).1
    (lstm_step recurrent_activation named_activation
       w' units activation (initial_hc units) x).1 /\
  Forall2 Qeq
    (lstm_step recurrent_activation named_activation
       w units activation (initial_hc units) x).2
    (lstm_step recurrent_activation named_activation
       w' units activation (initial_hc units) x).2 /\
  Forall2 Qeq
    (lstm_example recurrent_activation named_activation
       w units activation [x])
    (lstm_example recurrent_activation named_activation
       w' units activation [x]).
Proof.
  intros Hkernel Hbias.
  cbn [lstm_example foldl].
  unfold lstm_step, initial_hc. cbn [fst snd of_int Num_Q].
  change (inject_Z 0) with 0.
  set (z := fun v : nat -> nat -> nat -> Q => fun j =>
              (dot x (v 0%nat) j + dot (replicate units 0) (v 1%nat) j
               + v 2%nat 0%nat j)%num).
  assert (Hz : forall j, (j < units \/ 2 * units <= j)%nat -> z w j == z w' j).
  { intros j Hj. unfold z. cbn [nadd Num_Q].
    rewrite !dot_zero_state, (dot_ext x (w 0%nat) (w' 0%nat) j),
      (Hbias j Hj); [reflexivity|].
    intros i. now apply Hkernel. }
  set (cell := fun v : nat -> nat -> nat -> Q => fun k =>
                 (recurrent_activation (z v (units + k)%nat)
                  * nth k (replicate units 0) 0
                  + recurrent_activation (z v k)
                    * activation_fn named_activation activation
                        (z v (2 * units + k)%nat))%num).
  assert (Hcell : forall k, (k < units)%nat -> cell w k == cell w' k).
  { intros k Hk. unfold cell. cbn [nadd nmul Num_Q].
    rewrite nth_zero_state.
    rewrite (recurrent_activation_proper _ _ (Hz k ltac:(lia))).
    rewrite (activation_fn_proper activation _ _
               (Hz (2 * units + k)%nat ltac:(lia))).
    ring. }
  assert (Hc : Forall2 Qeq (map (cell w) (seq 0 units))
                           (map (cell w') (seq 0 units)))
    by now apply Forall2_map_seq.
  assert (Hh : Forall2 Qeq
                 (map (fun k =>
                         (recurrent_activation (z w (3 * units + k)%nat)
                          * activation_fn named_activation activation
                              (nth k (map (cell w) (seq 0 units)) 0))%num)
                      (seq 0 units))
                 (map (fun k =>
                         (recurrent_activation (z w' (3 * units + k)%nat)
                          * activation_fn named_activation activation
                              (nth k (map (cell w') (seq 0 units)) 0))%num)
                      (seq 0 units))).
  { apply Forall2_map_seq. intros k Hk. cbn [nmul Num_Q].
    rewrite !nth_map_seq by exact Hk.
    rewrite (recurrent_activation_proper _ _
               (Hz (3 * units + k)%nat ltac:(lia))).
    rewrite (activation_fn_proper activation _ _ (Hcell k Hk)).
    reflexivity. }
  split; [exact Hh|]. split; [exact Hc|exact Hh].
Qed.

End FirstStep.

Lemma lstm_first_step_ignores_memory_witness :
  Forall2 Qeq
    (lstm_example (fun q => q) (fun _ q => q)
       (fun tensor _ _ => if (tensor =? 1)%nat then 5%Q else 1%Q)
       2 None [[1%Q; 2%Q; 3%Q]])
    (lstm_example (fun q => q) (fun _ q => q)
       (fun _ _ _ => 1%Q)
       2 None [[1%Q; 2%Q; 3%Q]]).
Proof.
  apply (lstm_first_step_ignores_memory (fun q => q) (fun _ q => q)
           (fun a b H => H) (fun _ a b H => H)
           (fun tensor _ _ => if (tensor =? 1)%nat then 5%Q else 1%Q)
           (fun _ _ _ => 1%Q) 2 None [1%Q; 2%Q; 3%Q]);
    intros; reflexivity.
Defined.

(** ** The cells in sequence *)

(** For every number of training examples from 2 to 3200, the hold-out of
    the fraction 0.2 trains on four fifths of them, rounded down, and
    validates on the others. *)
Lemma holdout_checked :
  forallb
    (fun n =>
       match validation_holdout n lit_0_2 with
       | Ok (n_fit, n_val) =>
           (n_fit =? 4 * n / 5) && (n_val =? n - 4 * n / 5)
       | Raise _ => false
       end)
    (seq 2 3199) = true.
Proof. vm_compute. reflexivity. Qed.

Lemma holdout_four_fifths (n : nat) :
  2 <= n <= 3200 ->
  validation_holdout n lit_0_2 = Ok (4 * n / 5, n - 4 * n / 5) /\
  0 < 4 * n / 5 < n.
Proof.
  intros Hn.
  pose proof holdout_checked as Hall.
  rewrite forallb_forall in Hall.
  specialize (Hall n ltac:(apply in_seq; lia)).
  destruct (validation_holdout n lit_0_2) as [[n_fit n_val]|e];
    [|discriminate].
  apply andb_prop in Hall as [Hfit Hval].
  apply Nat.eqb_eq in Hfit, Hval. subst. split; [reflexivity|].
  split.
  - apply Nat.div_str_pos. lia.
  - apply Nat.Div0.div_lt_upper_bound. lia.
Qed.

Section PipelineRun.
Context {A : Type} `{Num A}.
Variable RandomState : Type.
Variable seeded : Z -> RandomState.
Variable permutation : RandomState -> nat -> list nat * RandomState.
Variable recurrent_activation : A -> A.
Variable named_activation : string -> A -> A.
Variable trained : Sequential -> CompileArgs -> FitArgs A -> Weights A.

Hypothesis permutation_shuffles :
  forall rng n, (permutation rng n).1 ≡ₚ seq 0 n.

(** From the trajectory to the plots nothing raises: for every trajectory
    of 4 to 4001 states of three numbers the split returns; the training
    subset has at least two examples, so that the hold-out of both fits
    leaves at least one example to train on and one to validate on; the
    cell of the models makes its six calls and returns two prediction
    arrays; and the plotting cell draws six panels, every line of which has
    one point per test example, (N + 3) / 5 of them. *)
Theorem pipeline_runs (data : list (list A)) (global : RandomState) :
  4 <= length data <= 4001 ->
  Forall (fun r => length r = 3) data ->
  exists s calls preds bp lp panels,
    split_cell RandomState seeded permutation data global = (Ok s, global) /\
    2 <= length (X_train s) /\
    length (y_train s) = length (X_train s) /\
    (exists n_fit n_val,
       validation_holdout (length (X_train s)) lit_0_2
       = Ok (n_fit, n_val) /\
       0 < n_fit /\ 0 < n_val) /\
    models_cell recurrent_activation named_activation trained s
    = (calls, Ok preds) /\
    length calls = 6 /\
    baseline_predictions preds = T2 bp /\
    lstm_predictions preds = T2 lp /\
    plot_cell (y_test s) bp lp = Ok panels /\
    length panels = 6 /\
    Forall (fun p =>
              Forall (fun l => length (points l) = (length data + 3) / 5)
                     (lines p))
           panels.
Proof.
  intros HN Hrows.
  destruct (split_cell_indices RandomState seeded permutation
              permutation_shuffles data global ltac:(lia))
    as (s & ind_train & ind_test & Hs & HXtr & HXte & Hytr & Hyte
        & Hte & Htr & _).
  assert (Htrain : length (X_train s)
                   = length data - 1 - (length data + 3) / 5).
  { now rewrite <- (Forall2_length _ _ _ HXtr). }
  assert (Hytrain : length (y_train s) = length (X_train s)).
  { now rewrite <- (Forall2_length _ _ _ Hytr), (Forall2_length _ _ _ HXtr). }
  assert (Htwo : 2 <= length (X_train s) <= 3200).
  { rewrite Htrain.
    pose proof (Nat.div_mod_eq (length data + 3) 5) as Hdm.
    pose proof (Nat.mod_upper_bound (length data + 3) 5 ltac:(lia)) as Hm.
    lia. }
  destruct (holdout_four_fifths (length (X_train s)) Htwo)
    as (Hhold & Hfitpos & Hfitlt).
  assert (HrowsX : Forall (fun r => length r = 3) (dataset data).1).
  { rewrite dataset_slices. now apply Forall_take. }
  assert (Hrowsy : Forall (fun r => length r = 3) (dataset data).2).
  { rewrite dataset_slices. now apply Forall_drop. }
  assert (Htr3 : Forall (fun r => length r = 3) (X_train s))
    by exact (rows_Forall _ _ _ _ HrowsX HXtr).
  assert (Hte3 : Forall (fun r => length r = 3) (X_test s))
    by exact (rows_Forall _ _ _ _ HrowsX HXte).
  assert (Hyte3 : Forall (fun r => length r = 3) (y_test s))
    by exact (rows_Forall _ _ _ _ Hrowsy Hyte).
  apply Forall2_length in HXte, Hyte.
  pose proof (models_cell_run recurrent_activation named_activation trained
                s 3 Htr3 Hte3) as Hrun.
  cbv zeta in Hrun.
  match type of Hrun with
  | _ = (_, Ok {| baseline_predictions := T2 ?b;
                  lstm_predictions := T2 ?l |}) =>
      set (bp := b) in *; set (lp := l) in *
  end.
  assert (Hbp3 : Forall (fun r => length r = 3) bp).
  { apply Forall_map, Forall_forall. intros. apply dense_row_length. }
  assert (Hlp3 : Forall (fun r => length r = 3) lp).
  { apply Forall_map, Forall_forall. intros. apply dense_row_length. }
  destruct (plot_cell_panels (y_test s) bp lp ((length data + 3) / 5)
              Hyte3 Hbp3 Hlp3)
    as (panels & Hplot & Htable).
  { lia. }
  { unfold bp. rewrite length_map. lia. }
  { unfold lp. rewrite length_map. lia. }
  exists s. do 2 eexists. exists bp, lp, panels.
  split; [exact Hs|].
  split; [lia|].
  split; [exact Hytrain|].
  split; [eexists _, _; split; [exact Hhold|lia]|].
  split; [exact Hrun|].
  split; [reflexivity|].
  split; [reflexivity|].
  split; [reflexivity|].
  split; [exact Hplot|].
  split; [exact (Forall2_length _ _ _ Htable)|].
  clear -Htable.
  induction Htable as [|p [[pos j] predicted] panels table
                         (_ & a & q & Hlines & Ha & Hq & _) _ IH];
    constructor; [|exact IH].
  cbn beta. rewrite Hlines. now repeat constructor.
Qed.

End PipelineRun.

Lemma pipeline_runs_witness :
  4 <= length (ramp 12) <= 4001 /\
  Forall (fun r => length r = 3) (ramp 12) /\
  exists s preds panels bp lp,
    split_cell nat counter_seeded reversing_permutation (ramp 12) 0
    = (Ok s, 0) /\
    (models_cell linear linear_named unit_weights s).2 = Ok preds /\
    baseline_predictions preds = T2 bp /\
    lstm_predictions preds = T2 lp /\
    plot_cell (y_test s) bp lp = Ok panels /\
    length panels = 6.
Proof.
  assert (Hlen : 4 <= length (ramp 12) <= 4001) by (simpl; lia).
  split; [exact Hlen|]. split; [apply ramp_rows|].
  destruct (pipeline_runs nat counter_seeded reversing_permutation
              linear linear_named unit_weights
              reversing_permutation_shuffles (ramp 12) 0 Hlen
              (ramp_rows 12))
    as (s & calls & preds & bp & lp & panels & Hs & _ & _ & _ & Hrun & _
        & Hb & Hl & Hplot & Hsix & _).
  exists s, preds, panels, bp, lp. rewrite Hrun. auto 10.
Defined.
